(** * FIDO U2F attestation verification (verify.fidou2f.webauthn.js)

    A shallow embedding of the attestation verifier: the authenticator-data
    parser, the COSE key converter, the DER/PEM encoder and the orchestrator
    [verifyFidoU2fAttestation].  JavaScript exceptions are results of a small
    error monad; Node's [Buffer] is a list of bytes; the three required
    modules ([base64url], [cbor], [crypto]) are parameters of the
    orchestrator. *)

From Stdlib Require Import ZArith NArith Strings.Byte Strings.Ascii Lia.
From stdpp Require Import base list strings gmap.

Set Warnings "-register-all".

Local Open Scope Z_scope.

(** ** Exceptions and results *)

(** The modules loaded by [require] at lines 1-3. *)
Inductive extern := base64url | cbor | crypto.

(** What a call can throw: the runtime's [TypeError] and [RangeError], an
    [Error] built by this file with its message, or whatever one of the
    required modules throws. *)
Inductive exn :=
| TypeError
| RangeError
| Error (msg : string)
| Thrown (lib : extern) (msg : string).

Inductive result (A : Type) :=
| Return (a : A)
| Throw (e : exn).
Arguments Return {A} a.
Arguments Throw {A} e.

#[global] Instance result_ret : MRet result := @Return.
#[global] Instance result_bind : MBind result := fun A B f m =>
  match m with
  | Return a => f a
  | Throw e => Throw e
  end.

Definition throws {A} (m : result A) : Prop := ∃ e, m = Throw e.

(** ** JavaScript values

    The values the CBOR decoder can hand to the verifier.  A decoded map is
    a plain object when all its keys are strings and a [Map] otherwise. *)
Inductive jsval :=
| JUndefined
| JNull
| JBool (b : bool)
| JNum (n : Z)
| JStr (s : string)
| JBuf (bytes : list byte)
| JArr (items : list jsval)
| JObj (fields : gmap string jsval)
| JMap (entries : list (jsval * jsval)).

(** [o.name] for the property names this file reads ([authData], [attStmt],
    [x5c], [sig]): none of them is inherited, so only a plain object can
    have one; reading a property of [undefined] or [null] throws. *)
Definition get_prop (o : jsval) (name : string) : result jsval :=
  match o with
  | JUndefined | JNull => Throw TypeError
  | JObj fields => Return (default JUndefined (fields !! name))
  | _ => Return JUndefined
  end.

(** [o[0]]. *)
Definition get_index0 (o : jsval) : result jsval :=
  match o with
  | JUndefined | JNull => Throw TypeError
  | JArr items => Return (default JUndefined (items !! 0%nat))
  | JBuf bytes =>
      Return (from_option (λ b, JNum (Z.of_N (Byte.to_N b))) JUndefined (bytes !! 0%nat))
  | JStr (String c _) => Return (JStr (String c EmptyString))
  | JStr EmptyString => Return JUndefined
  | JObj fields => Return (default JUndefined (fields !! "0"))
  | _ => Return JUndefined
  end.

(** [Map.prototype.get] with a number as key (SameValueZero: a number key is
    equal only to the same number). *)
Fixpoint map_get_num (entries : list (jsval * jsval)) (k : Z) : jsval :=
  match entries with
  | [] => JUndefined
  | (JNum k', v) :: rest => if Z.eqb k' k then v else map_get_num rest k
  | _ :: rest => map_get_num rest k
  end.

(** [o.get(k)]: only a [Map] has the method. *)
Definition call_get (o : jsval) (k : Z) : result jsval :=
  match o with
  | JMap entries => Return (map_get_num entries k)
  | _ => Throw TypeError
  end.

(** ** Buffers *)

#[global] Instance byte_eq_dec : EqDecision byte := Byte.byte_eq_dec.

Definition byte_val (b : byte) : Z := Z.of_N (Byte.to_N b).

(** [buffer.slice(start, end)] for [0 <= start <= end]; both ends are clamped
    to the length. *)
Definition slice (buffer : list byte) (start end_ : nat) : list byte :=
  take (end_ - start) (drop start buffer).

(** [buf.readUInt32BE(offset)]: the first and the last byte read must
    exist. *)
Definition readUInt32BE (buf : list byte) (offset : nat) : result Z :=
  match buf !! offset, buf !! (offset + 1)%nat,
        buf !! (offset + 2)%nat, buf !! (offset + 3)%nat with
  | Some first, Some b1, Some b2, Some last =>
      Return (byte_val first * 2 ^ 24 + byte_val b1 * 2 ^ 16
              + byte_val b2 * 2 ^ 8 + byte_val last)
  | _, _, _, _ => Throw RangeError
  end.

(** [buf.readUInt16BE(offset)]. *)
Definition readUInt16BE (buf : list byte) (offset : nat) : result Z :=
  match buf !! offset, buf !! (offset + 1)%nat with
  | Some first, Some last => Return (byte_val first * 2 ^ 8 + byte_val last)
  | _, _ => Throw RangeError
  end.

(** [Buffer.concat(list)]: every element must be a buffer. *)
Fixpoint Buffer_concat (l : list jsval) : result (list byte) :=
  match l with
  | [] => Return []
  | JBuf b :: rest => tl ← Buffer_concat rest; Return (b ++ tl)
  | _ :: _ => Throw TypeError
  end.

(** ** The authenticator-data parser (lines 34-47) *)

Definition U2F_USER_PRESENTED : Z := 0x01.

Record AuthData := {
  rpIdHash : list byte;
  flagsBuf : list byte;
  flags : option byte;
  counter : Z;
  counterBuf : list byte;
  aaguid : list byte;
  credID : list byte;
  COSEPublicKey : list byte
}.

Definition parseMakeCredAuthData (arg : jsval) : result AuthData :=
  match arg with
  | JBuf buffer =>
      let rpIdHash := slice buffer 0 32 in let buffer := drop 32 buffer in
      let flagsBuf := slice buffer 0 1 in let buffer := drop 1 buffer in
      let flags := flagsBuf !! 0%nat in
      let counterBuf := slice buffer 0 4 in let buffer := drop 4 buffer in
      counter ← readUInt32BE counterBuf 0;
      let aaguid := slice buffer 0 16 in let buffer := drop 16 buffer in
      let credIDLenBuf := slice buffer 0 2 in let buffer := drop 2 buffer in
      credIDLen ← readUInt16BE credIDLenBuf 0;
      let credID := slice buffer 0 (Z.to_nat credIDLen) in
      let buffer := drop (Z.to_nat credIDLen) buffer in
      let COSEPublicKey := buffer in
      Return {| rpIdHash := rpIdHash; flagsBuf := flagsBuf; flags := flags;
                counter := counter; counterBuf := counterBuf; aaguid := aaguid;
                credID := credID; COSEPublicKey := COSEPublicKey |}
  | _ => Throw TypeError
  end.

(** Big-endian value of a byte string, most significant byte first. *)
Definition be_uint (l : list byte) : Z :=
  fold_left (λ acc b, acc * 256 + byte_val b) l 0.

(** The credentialId length a buffer declares at offset 53. *)
Definition declared_credIDLen (buf : list byte) : Z := be_uint (slice buf 53 55).

(** ** Text: base64 and hexadecimal (Node's [toString('base64')] and
    [Buffer.from(_, 'hex')]) *)

Definition LF : string := String "010"%char EmptyString.

Definition b64_table : string :=
  "ABCDEFGHIJKLMNOPQRSTUVWXYZabcdefghijklmnopqrstuvwxyz0123456789+/".

Definition b64_char (n : N) : ascii :=
  default "A"%char (String.get (N.to_nat n) b64_table).

(** Three bytes make four sextets; one or two trailing bytes are padded
    with [=]. *)
Fixpoint toString_base64 (buf : list byte) : string :=
  match buf with
  | [] => ""
  | [a] =>
      let a := Byte.to_N a in
      String (b64_char (a / 4)) (String (b64_char (a mod 4 * 16)) "==")
  | [a; b] =>
      let a := Byte.to_N a in let b := Byte.to_N b in
      String (b64_char (a / 4)) (String (b64_char (a mod 4 * 16 + b / 16))
        (String (b64_char (b mod 16 * 4)) "="))
  | a :: b :: c :: rest =>
      let a := Byte.to_N a in let b := Byte.to_N b in let c := Byte.to_N c in
      String (b64_char (a / 4)) (String (b64_char (a mod 4 * 16 + b / 16))
        (String (b64_char (b mod 16 * 4 + c / 64)) (String (b64_char (c mod 64))
          (toString_base64 rest))))
  end%N.

Definition hex_digit (c : ascii) : option N :=
  let n := N_of_ascii c in
  (if (48 <=? n) && (n <=? 57) then Some (n - 48)
   else if (97 <=? n) && (n <=? 102) then Some (n - 87)
   else if (65 <=? n) && (n <=? 70) then Some (n - 55)
   else None)%N.

(** Pairs of hexadecimal digits; decoding stops at the first pair that is
    not one. *)
Fixpoint Buffer_from_hex (s : string) : list byte :=
  match s with
  | String h (String l rest) =>
      match hex_digit h, hex_digit l with
      | Some h, Some l =>
          match Byte.of_N (h * 16 + l)%N with
          | Some b => b :: Buffer_from_hex rest
          | None => []
          end
      | _, _ => []
      end
  | _ => []
  end.

(** ** The DER/PEM encoder (lines 80-119) *)

(** [Math.ceil(n / d)] on lengths. *)
Definition ceil_div (n d : nat) : nat := ((n + (d - 1)) / d)%nat.

Definition ASN1toPEM (arg : jsval) : result string :=
  match arg with
  | JBuf pkBuffer =>
      let '(pkBuffer, type) :=
        if Nat.eqb (length pkBuffer) 65
           && from_option (Byte.eqb x04) false (pkBuffer !! 0%nat)
        then (Buffer_from_hex "3059301306072a8648ce3d020106082a8648ce3d030107034200"
                ++ pkBuffer, "PUBLIC KEY")
        else (pkBuffer, "CERTIFICATE") in
      let b64cert := toString_base64 pkBuffer in
      let PEMKey :=
        fold_left
          (λ PEMKey i,
             let start := (64 * i)%nat in
             PEMKey +:+ (String.substring start 64 b64cert +:+ LF))
          (seq 0 (ceil_div (String.length b64cert) 64)) "" in
      let PEMKey :=
        ("-----BEGIN " +:+ type +:+ "-----" +:+ LF) +:+ PEMKey
        +:+ ("-----END " +:+ type +:+ "-----" +:+ LF) in
      Return PEMKey
  | _ => Throw (Error "ASN1toPEM: pkBuffer must be Buffer.")
  end.

(** ** The required modules

    What the file uses of [base64url], [cbor] and [crypto]; a left result is
    the message of an exception the module throws. *)
Class Required := {
  base64url_toBuffer : string → string + list byte;
  cbor_decodeAllSync : list byte → string + list jsval;
  crypto_sha256_digest : list byte → list byte;
  crypto_sha256_verify : list byte → string → jsval → string + bool
}.

Definition call {A} (lib : extern) (r : string + A) : result A :=
  match r with
  | inl msg => Throw (Thrown lib msg)
  | inr a => Return a
  end.

(** The part of the request body the verifier reads. *)
Record Response := {
  attestationObject : string;
  clientDataJSON : string
}.

Record WebAuthnResponse := { response : Response }.

Section Verifier.
Context `{Required}.

(** Lines 14-18. *)
Definition verifySignature (signature : jsval) (data : list byte)
    (publicKey : string) : result bool :=
  call crypto (crypto_sha256_verify data publicKey signature).

(** Lines 25-27. *)
Definition hash (data : list byte) : list byte := crypto_sha256_digest data.

(** Lines 49-73. *)
Definition COSEECDHAtoPKCS (COSEPublicKey : list byte) : result (list byte) :=
  items ← call cbor (cbor_decodeAllSync COSEPublicKey);
  let coseStruct := default JUndefined (items !! 0%nat) in
  let tag := [x04] in
  x ← call_get coseStruct (-2);
  y ← call_get coseStruct (-3);
  Buffer_concat [JBuf tag; x; y].

(** [flags & U2F_USER_PRESENTED]; an undefined operand counts as 0. *)
Definition flags_and (flags : option byte) (mask : Z) : Z :=
  Z.land (from_option byte_val 0 flags) mask.

(** Lines 121-138. *)
Definition verifyFidoU2fAttestation (webAuthnResponse : WebAuthnResponse)
    : result bool :=
  attestationBuffer ←
    call base64url
      (base64url_toBuffer (attestationObject (response webAuthnResponse)));
  items ← call cbor (cbor_decodeAllSync attestationBuffer);
  let ctapMakeCredResp := default JUndefined (items !! 0%nat) in
  authData ← get_prop ctapMakeCredResp "authData";
  authrDataStruct ← parseMakeCredAuthData authData;
  if Z.eqb (flags_and (flags authrDataStruct) U2F_USER_PRESENTED) 0
  then Throw (Error "User was NOT presented durring authentication!")
  else
    clientData ←
      call base64url
        (base64url_toBuffer (clientDataJSON (response webAuthnResponse)));
    let clientDataHash := hash clientData in
    let reservedByte := [x00] in
    publicKey ← COSEECDHAtoPKCS (COSEPublicKey authrDataStruct);
    signatureBase ←
      Buffer_concat
        [JBuf reservedByte; JBuf (rpIdHash authrDataStruct);
         JBuf clientDataHash; JBuf (credID authrDataStruct); JBuf publicKey];
    attStmt ← get_prop ctapMakeCredResp "attStmt";
    x5c ← get_prop attStmt "x5c";
    leaf ← get_index0 x5c;
    PEMCertificate ← ASN1toPEM leaf;
    signature ← get_prop attStmt "sig";
    verifySignature signature signatureBase PEMCertificate.

(** Step 1 on its own (lines 122-123): the string decoded to bytes, the
    bytes decoded to their CBOR items. *)
Definition decode_attestation (attestationObject : string)
    : result (list jsval) :=
  attestationBuffer ← call base64url (base64url_toBuffer attestationObject);
  call cbor (cbor_decodeAllSync attestationBuffer).

(** Lines 129-137 on their own: what the orchestrator does with the decoded
    attestation object and the parsed fields once the user-presence test
    has passed.  The flags, the counter and the aaguid are not among its
    arguments. *)
Definition attest (ctapMakeCredResp : jsval) (clientDataJSON : string)
    (rpIdHash credID COSEPublicKey : list byte) : result bool :=
  clientData ← call base64url (base64url_toBuffer clientDataJSON);
  let clientDataHash := hash clientData in
  let reservedByte := [x00] in
  publicKey ← COSEECDHAtoPKCS COSEPublicKey;
  signatureBase ←
    Buffer_concat
      [JBuf reservedByte; JBuf rpIdHash; JBuf clientDataHash; JBuf credID;
       JBuf publicKey];
  attStmt ← get_prop ctapMakeCredResp "attStmt";
  x5c ← get_prop attStmt "x5c";
  leaf ← get_index0 x5c;
  PEMCertificate ← ASN1toPEM leaf;
  signature ← get_prop attStmt "sig";
  verifySignature signature signatureBase PEMCertificate.

(** Lines 134-137 on their own: the certificate and the signature are read
    from the attestation statement and the verifier is called on [data]. *)
Definition verify_statement (ctapMakeCredResp : jsval) (data : list byte)
    : result bool :=
  attStmt ← get_prop ctapMakeCredResp "attStmt";
  x5c ← get_prop attStmt "x5c";
  leaf ← get_index0 x5c;
  PEMCertificate ← ASN1toPEM leaf;
  signature ← get_prop attStmt "sig";
  verifySignature signature data PEMCertificate.

(** The first item decoded from [key] is a [Map] that holds the byte
    strings [x] and [y] under the labels -2 and -3. *)
Definition has_coordinates (key x y : list byte) : Prop :=
  ∃ items entries,
    cbor_decodeAllSync key = inr items
    ∧ items !! 0%nat = Some (JMap entries)
    ∧ map_get_num entries (-2) = JBuf x
    ∧ map_get_num entries (-3) = JBuf y.
End Verifier.

Definition user_not_present : exn :=
  Error "User was NOT presented durring authentication!".

Definition not_a_buffer : exn := Error "ASN1toPEM: pkBuffer must be Buffer.".

Section SignatureBaseOf.
Context `{Required}.

(** Steps 1 to 6 succeed on [resp]: [ctap] is the decoded attestation
    object, its authenticator data parses and has the user-presence bit,
    the client data and the key are decoded, and [data] is the buffer built
    at line 132. *)
Definition signature_base_of (resp : WebAuthnResponse) (ctap : jsval)
    (data : list byte) : Prop :=
  ∃ items buf r clientData x y,
    decode_attestation (attestationObject (response resp)) = Return items
    ∧ ctap = default JUndefined (items !! 0%nat)
    ∧ get_prop ctap "authData" = Return (JBuf buf)
    ∧ parseMakeCredAuthData (JBuf buf) = Return r
    ∧ flags_and (flags r) U2F_USER_PRESENTED ≠ 0
    ∧ base64url_toBuffer (clientDataJSON (response resp)) = inr clientData
    ∧ has_coordinates (COSEPublicKey r) x y
    ∧ data = [x00] ++ rpIdHash r ++ hash clientData ++ credID r
             ++ ([x04] ++ x ++ y).

End SignatureBaseOf.

(** A result that is anything but the user-presence error. *)
Definition other_failure {A} (m : result A) : Prop := m ≠ Throw user_not_present.

(** ** Reading a PEM block back

    The inverse direction used to state the round trip: base64 decoding
    (RFC 4648, groups of four characters, padded with [=]) of the lines that
    are not frame lines. *)

Definition b64_index (c : ascii) : option N :=
  let n := N_of_ascii c in
  (if (65 <=? n) && (n <=? 90) then Some (n - 65)
   else if (97 <=? n) && (n <=? 122) then Some (n - 71)
   else if (48 <=? n) && (n <=? 57) then Some (n + 4)
   else if n =? 43 then Some 62
   else if n =? 47 then Some 63
   else None)%N.

Fixpoint base64_decode (s : string) : option (list byte) :=
  match s with
  | EmptyString => Some []
  | String c0 (String c1 (String c2 (String c3 rest))) =>
      n0 ← b64_index c0;
      n1 ← b64_index c1;
      b0 ← Byte.of_N (n0 * 4 + n1 / 16)%N;
      if Ascii.eqb c3 "=" then
        match rest with
        | EmptyString =>
            if Ascii.eqb c2 "=" then Some [b0]
            else
              n2 ← b64_index c2;
              b1 ← Byte.of_N (n1 mod 16 * 16 + n2 / 4)%N;
              Some [b0; b1]
        | _ => None
        end
      else
        n2 ← b64_index c2;
        n3 ← b64_index c3;
        b1 ← Byte.of_N (n1 mod 16 * 16 + n2 / 4)%N;
        b2 ← Byte.of_N (n2 mod 4 * 64 + n3)%N;
        tl ← base64_decode rest;
        Some (b0 :: b1 :: b2 :: tl)
  | _ => None
  end.

(** Every character of [s] passes the test [P]. *)
Fixpoint all_chars (P : ascii → bool) (s : string) : bool :=
  match s with
  | EmptyString => true
  | String c rest => P c && all_chars P rest
  end.

(** A character that does not end a line. *)
Definition line_char (c : ascii) : bool := negb (Ascii.eqb c "010").

(** A character that neither ends a line nor starts a frame line. *)
Definition body_char (c : ascii) : bool :=
  negb (Ascii.eqb c "010") && negb (Ascii.eqb c "-").

(** A character of the base64url alphabet (RFC 4648, section 5). *)
Definition base64url_char (c : ascii) : bool :=
  let n := N_of_ascii c in
  ((65 <=? n) && (n <=? 90) || (97 <=? n) && (n <=? 122)
   || (48 <=? n) && (n <=? 57) || (n =? 45) || (n =? 95))%N.

(** A text that is valid base64url: it has no other character. *)
Definition is_base64url (s : string) : bool := all_chars base64url_char s.

(** The lines of a text: the pieces between line feeds. *)
Fixpoint split_lines (s : string) : list string :=
  match s with
  | EmptyString => [EmptyString]
  | String c rest =>
      if Ascii.eqb c "010" then EmptyString :: split_lines rest
      else
        match split_lines rest with
        | l :: ls => String c l :: ls
        | [] => [String c EmptyString]
        end
  end.

Definition is_frame_line (l : string) : bool := String.prefix "-----" l.

Definition pem_body (pem : string) : string :=
  String.concat "" (List.filter (λ l, negb (is_frame_line l)) (split_lines pem)).

Definition pem_decode (pem : string) : option (list byte) :=
  base64_decode (pem_body pem).

(** The 26 bytes of the SubjectPublicKeyInfo header of a P-256 key:
    SEQUENCE (89) { SEQUENCE (19) { OID 1.2.840.10045.2.1,
    OID 1.2.840.10045.3.1.7 }, BIT STRING (66, no unused bits) }. *)
Definition spki_prefix : list byte :=
  [x30; x59; x30; x13; x06; x07; x2a; x86; x48; xce; x3d; x02; x01;
   x06; x08; x2a; x86; x48; xce; x3d; x03; x01; x07; x03; x42; x00].

(** A raw uncompressed EC point: 65 bytes, the first one 0x04. *)
Definition is_raw_point (buf : list byte) : Prop :=
  length buf = 65%nat ∧ buf !! 0%nat = Some x04.

(** [lines] is [text] wrapped at [width] characters: the lines put together
    give the text, no line is empty or longer than [width], and every line
    but the last is full. *)
Definition wrapped (width : nat) (text : string) (lines : list string) : Prop :=
  String.concat "" lines = text
  ∧ Forall (λ l, (1 ≤ String.length l ≤ width)%nat) lines
  ∧ ∀ i l, (S i < length lines)%nat → lines !! i = Some l → String.length l = width.

(** The base64 text of the 26 bytes of [spki_prefix] followed by 0x04. *)
Definition pk_header : string := "MFkwEwYHKoZIzj0CAQYIKoZIzj0DAQcDQgAE".

(** The text of a PEM block with the given label and body lines. *)
Definition pem_block (label : string) (lines : list string) : string :=
  ("-----BEGIN " +:+ label +:+ "-----" +:+ LF)
  +:+ String.concat "" (map (λ l, l +:+ LF) lines)
  +:+ ("-----END " +:+ label +:+ "-----" +:+ LF).

(** ** A reference instance of the required modules

    Executable stand-ins on which the statements below are run: a decoder
    for definite-length CBOR (RFC 8949; unsigned and negative integers, byte
    and text strings, arrays, maps, the simple values), a base64url decoder
    that, like [Buffer.from(_, 'base64')] under [base64url.toBuffer], rejects
    no string, and a toy digest and signature check that take the place of
    SHA-256 and ECDSA. *)
Module Reference.

(** The head of a data item: major type, argument, remaining bytes. *)
Definition cbor_head (bs : list byte) : option (N * N * list byte) :=
  match bs with
  | [] => None
  | ib :: rest =>
      let mt := (Byte.to_N ib / 32)%N in
      let ai := (Byte.to_N ib mod 32)%N in
      if (ai <? 24)%N then Some (mt, ai, rest)
      else if (ai =? 24)%N then
        match rest with
        | a :: rest => Some (mt, Byte.to_N a, rest)
        | _ => None
        end
      else if (ai =? 25)%N then
        match rest with
        | a :: b :: rest => Some (mt, (Byte.to_N a * 256 + Byte.to_N b)%N, rest)
        | _ => None
        end
      else None
  end.

Fixpoint pair_up (l : list jsval) : list (jsval * jsval) :=
  match l with
  | k :: v :: rest => (k, v) :: pair_up rest
  | _ => []
  end.

Definition key_string (kv : jsval * jsval) : option (string * jsval) :=
  match kv with
  | (JStr k, v) => Some (k, v)
  | _ => None
  end.

(** A map whose keys are all strings becomes a plain object (a later
    entry overwrites an earlier one), any other map a [Map]. *)
Definition make_map (kvs : list (jsval * jsval)) : jsval :=
  match mapM key_string kvs with
  | Some fields => JObj (fold_left (λ o kv, <[kv.1 := kv.2]> o) fields ∅)
  | None => JMap kvs
  end.

Fixpoint cbor_item (fuel : nat) (bs : list byte) : option (jsval * list byte) :=
  match fuel with
  | O => None
  | S fuel =>
      '(mt, arg, rest) ← cbor_head bs;
      let items :=
        fix items (n : nat) (bs : list byte) : option (list jsval * list byte) :=
          match n with
          | O => Some ([], bs)
          | S n =>
              '(v, bs) ← cbor_item fuel bs;
              '(vs, bs) ← items n bs;
              Some (v :: vs, bs)
          end in
      let len := N.to_nat arg in
      match mt with
      | 0%N => Some (JNum (Z.of_N arg), rest)
      | 1%N => Some (JNum (-1 - Z.of_N arg), rest)
      | 2%N =>
          if (length rest <? len)%nat then None
          else Some (JBuf (take len rest), drop len rest)
      | 3%N =>
          if (length rest <? len)%nat then None
          else Some (JStr (String.string_of_list_byte (take len rest)), drop len rest)
      | 4%N => '(vs, bs) ← items len rest; Some (JArr vs, bs)
      | 5%N => '(vs, bs) ← items (2 * len)%nat rest; Some (make_map (pair_up vs), bs)
      | 7%N =>
          match arg with
          | 20%N => Some (JBool false, rest)
          | 21%N => Some (JBool true, rest)
          | 22%N => Some (JNull, rest)
          | 23%N => Some (JUndefined, rest)
          | _ => None
          end
      | _ => None
      end
  end.

(** All the items of the input, one after the other. *)
Fixpoint decode_all (fuel : nat) (bs : list byte) : string + list jsval :=
  match bs, fuel with
  | [], _ => inr []
  | _, O => inl "Insufficient data"
  | _, S fuel =>
      match cbor_item (length bs) bs with
      | None => inl "Insufficient data"
      | Some (v, rest) =>
          match decode_all fuel rest with
          | inl msg => inl msg
          | inr vs => inr (v :: vs)
          end
      end
  end.

Definition decodeAllSync (bs : list byte) : string + list jsval :=
  decode_all (length bs) bs.

(** The value of a character of either alphabet, base64 or base64url. *)
Definition unbase64 (c : ascii) : option N :=
  if Ascii.eqb c "-" then Some 62%N
  else if Ascii.eqb c "_" then Some 63%N
  else b64_index c.

(** The sextets of a text: a character outside the alphabets is skipped,
    and the first [=] ends the text. *)
Fixpoint sextets (s : string) : list N :=
  match s with
  | EmptyString => []
  | String c rest =>
      if Ascii.eqb c "=" then []
      else
        match unbase64 c with
        | Some n => n :: sextets rest
        | None => sextets rest
        end
  end.

(** Four sextets make three bytes; three left over make two, two make one,
    and a single one is dropped. *)
Fixpoint bytes_of_sextets (l : list N) : list byte :=
  let byte (n : N) := default x00 (Byte.of_N (n mod 256)%N) in
  match l with
  | a :: b :: c :: d :: rest =>
      byte (a * 4 + b / 16)%N :: byte (b mod 16 * 16 + c / 4)%N
      :: byte (c mod 4 * 64 + d)%N :: bytes_of_sextets rest
  | [a; b; c] => [byte (a * 4 + b / 16)%N; byte (b mod 16 * 16 + c / 4)%N]
  | [a; b] => [byte (a * 4 + b / 16)%N]
  | _ => []
  end.

(** [base64url.toBuffer] on a string: it never throws. *)
Definition toBuffer (s : string) : string + list byte :=
  inr (bytes_of_sextets (sextets s)).

(** The inverse of [toBuffer], to write test vectors. *)
Fixpoint to_url (s : string) : string :=
  match s with
  | EmptyString => EmptyString
  | String c rest =>
      if Ascii.eqb c "=" then to_url rest
      else String (if Ascii.eqb c "+" then "-" else if Ascii.eqb c "/" then "_" else c)%char
                  (to_url rest)
  end.

Definition base64url_encode (bytes : list byte) : string :=
  to_url (toString_base64 bytes).

(** A 32-byte toy digest: the input cut or zero-filled to 32 bytes, with
    its length folded into the first byte. *)
Definition toy_digest (data : list byte) : list byte :=
  default x00 (Byte.of_N (N.of_nat (length data) mod 256)%N)
  :: take 31 (data ++ replicate 31 x00).

(** A toy signature check: the signature of [data] is its digest; the key
    must be a PEM text. *)
Definition toy_verify (data : list byte) (pem : string) (signature : jsval)
    : string + bool :=
  if String.prefix "-----BEGIN " pem then
    match signature with
    | JBuf s => inr (bool_decide (s = toy_digest data))
    | _ => inl "signature must be a buffer"
    end
  else inl "no start line".

#[export] Instance modules : Required := {|
  base64url_toBuffer := toBuffer;
  cbor_decodeAllSync := decodeAllSync;
  crypto_sha256_digest := toy_digest;
  crypto_sha256_verify := toy_verify
|}.

(** A verifier that accepts one signature on one data buffer and rejects
    everything else: it shows what buffer and what signature the
    orchestrator hands over. *)
Definition exact_verify (expected_data expected_sig data : list byte)
    (pem : string) (signature : jsval) : string + bool :=
  match signature with
  | JBuf s => inr (bool_decide (data = expected_data ∧ s = expected_sig))
  | _ => inl "signature must be a buffer"
  end.

Definition exact_modules (expected_data expected_sig : list byte) : Required := {|
  base64url_toBuffer := toBuffer;
  cbor_decodeAllSync := decodeAllSync;
  crypto_sha256_digest := toy_digest;
  crypto_sha256_verify := exact_verify expected_data expected_sig
|}.

(** *** Test vectors *)

Definition cbor_bytes (b : list byte) : list byte :=
  let n := N.of_nat (length b) in
  (if (n <? 24)%N then [default x00 (Byte.of_N (64 + n))]
   else [x58; default x00 (Byte.of_N n)]) ++ b.

Definition cbor_text (s : string) : list byte :=
  let b := String.list_byte_of_string s in
  default x00 (Byte.of_N (96 + N.of_nat (length b))) :: b.

Definition X : list byte := replicate 32 x17.
Definition Y : list byte := replicate 32 x2a.

(** An EC2 key: kty (1) = 2, alg (3) = -7, crv (-1) = 1, x (-2), y (-3). *)
Definition cose_key : list byte :=
  [xa5; x01; x02; x03; x26; x20; x01; x21] ++ cbor_bytes X
  ++ [x22] ++ cbor_bytes Y.

Definition rp : list byte := replicate 32 x11.
Definition cred : list byte := [xc0; xc1; xc2; xc3].

Definition auth_data_with (flag : byte) (key : list byte) : list byte :=
  rp ++ [flag] ++ [x00; x00; x01; x02] ++ replicate 16 xaa
  ++ [x00; x04] ++ cred ++ key.

Definition auth_data : list byte := auth_data_with x41 cose_key.

Definition cert : list byte := [x30; x82; x01; x00; xde; xad; xbe; xef].

Definition client_data : list byte := String.list_byte_of_string "{}".

Definition point : list byte := [x04] ++ X ++ Y.

Definition signature_base : list byte :=
  [x00] ++ rp ++ toy_digest client_data ++ cred ++ point.

Definition attestation_with (sig authData : list byte) : list byte :=
  [xa3] ++ cbor_text "fmt" ++ cbor_text "fido-u2f"
  ++ cbor_text "attStmt"
  ++ ([xa2] ++ cbor_text "sig" ++ cbor_bytes sig
      ++ cbor_text "x5c" ++ [x81] ++ cbor_bytes cert)
  ++ cbor_text "authData" ++ cbor_bytes authData.

Definition attestation : list byte :=
  attestation_with (toy_digest signature_base) auth_data.

Definition response_of (att : list byte) : WebAuthnResponse :=
  {| response := {| attestationObject := base64url_encode att;
                    clientDataJSON := base64url_encode client_data |} |}.

(** A key of type 1 (OKP) whose x has 31 bytes. *)
Definition odd_key : list byte :=
  [xa3; x01; x01; x21] ++ cbor_bytes (replicate 31 x17)
  ++ [x22] ++ cbor_bytes Y.

(** A map of three entries that stops after its head. *)
Definition truncated : list byte := [xa3].

(** A second data item after the first one. *)
Definition trailing : list byte := [x82; x01; x02].

(** The items the decoder finds in [bs], none if it fails. *)
Definition items_of (bs : list byte) : list jsval :=
  match decodeAllSync bs with
  | inr items => items
  | inl _ => []
  end.

Definition first_of (bs : list byte) : jsval := default JUndefined (items_of bs !! 0%nat).

(** The attestation object with the given format name. *)
Definition attestation_fmt (fmt : string) : list byte :=
  [xa3] ++ cbor_text "fmt" ++ cbor_text fmt
  ++ cbor_text "attStmt"
  ++ ([xa2] ++ cbor_text "sig" ++ cbor_bytes (toy_digest signature_base)
      ++ cbor_text "x5c" ++ [x81] ++ cbor_bytes cert)
  ++ cbor_text "authData" ++ cbor_bytes auth_data.

(** The attestation object with the given authenticator data. *)
Definition attestation_auth (authData : list byte) : list byte :=
  attestation_with (toy_digest signature_base) authData.

(** Authenticator data with another counter and aaguid. *)
Definition auth_data_other : list byte :=
  rp ++ [x41] ++ [xff; xfe; xfd; xfc] ++ replicate 16 x55
  ++ [x00; x04] ++ cred ++ cose_key.

(** Authenticator data that declares 200 bytes of credentialId and has 4. *)
Definition auth_data_overlong : list byte :=
  rp ++ [x41] ++ [x00; x00; x01; x02] ++ replicate 16 xaa
  ++ [x00; xc8] ++ cred.

(** The signature base of [auth_data_with _ odd_key]: its point has 64
    bytes. *)
Definition odd_base : list byte :=
  [x00] ++ rp ++ toy_digest client_data ++ cred
  ++ ([x04] ++ replicate 31 x17 ++ Y).

(** The response with the given clientDataJSON string. *)
Definition response_cd (att : list byte) (cd : string) : WebAuthnResponse :=
  {| response := {| attestationObject := base64url_encode att;
                    clientDataJSON := cd |} |}.

(** The properties of a plain object. *)
Definition fields_of (v : jsval) : gmap string jsval :=
  match v with
  | JObj fields => fields
  | _ => ∅
  end.

(** The attestation object with the given [x5c] item. *)
Definition attestation_x5c (x5c : list byte) : list byte :=
  [xa3] ++ cbor_text "fmt" ++ cbor_text "fido-u2f"
  ++ cbor_text "attStmt"
  ++ ([xa2] ++ cbor_text "sig" ++ cbor_bytes (toy_digest signature_base)
      ++ cbor_text "x5c" ++ x5c)
  ++ cbor_text "authData" ++ cbor_bytes auth_data.

(** The coordinates alone, without key type, algorithm and curve. *)
Definition bare_key : list byte :=
  [xa2; x21] ++ cbor_bytes X ++ [x22] ++ cbor_bytes Y.

End Reference.

(** * Properties *)

(** ** The result monad *)

Lemma bind_Return {A B} (f : A → result B) (a : A) : (Return a ≫= f) = f a.
Proof. reflexivity. Qed.

Lemma bind_returns {A B} (f : A → result B) (m : result A) (b : B) :
  (m ≫= f) = Return b ↔ ∃ a, m = Return a ∧ f a = Return b.
Proof.
  destruct m as [a|e]; cbn.
  - split; [eauto | intros (a' & [= <-] & Hf); exact Hf].
  - split; [discriminate | intros (a' & [=] & _)].
Qed.

(** ** Buffers *)

Lemma byte_val_range (b : byte) : 0 ≤ byte_val b < 256.
Proof. unfold byte_val. pose proof (Byte.to_N_bounded b). lia. Qed.

Lemma slice_length (buf : list byte) (start end_ : nat) :
  length (slice buf start end_) = ((end_ - start) `min` (length buf - start))%nat.
Proof. unfold slice. by rewrite length_take, length_drop. Qed.

(** Slicing what is left after [k] bytes is slicing the whole buffer [k]
    bytes further. *)
Lemma slice_drop (buf : list byte) (k n : nat) :
  slice (drop k buf) 0 n = slice buf k (k + n).
Proof. unfold slice. cbn [drop]. f_equal. lia. Qed.

Lemma slice_lookup (buf : list byte) (start end_ i : nat) :
  (i < end_ - start)%nat → slice buf start end_ !! i = buf !! (start + i)%nat.
Proof. intros Hi. unfold slice. by rewrite lookup_take_lt, lookup_drop. Qed.

(** Consecutive slices put together. *)
Lemma slice_app (buf : list byte) (a b c : nat) :
  (a ≤ b ≤ c)%nat → slice buf a b ++ slice buf b c = slice buf a c.
Proof.
  intros Habc. unfold slice.
  replace (drop b buf) with (drop (b - a) (drop a buf))
    by (rewrite drop_drop; f_equal; lia).
  rewrite take_take_drop. f_equal. lia.
Qed.

Lemma slice_all_drop (buf : list byte) (a b : nat) :
  (a ≤ b)%nat → slice buf a b ++ drop b buf = drop a buf.
Proof.
  intros Hab. unfold slice.
  replace (drop b buf) with (drop (b - a) (drop a buf))
    by (rewrite drop_drop; f_equal; lia).
  apply take_drop.
Qed.

(** Writing a byte outside a slice leaves the slice as it was. *)
Lemma slice_insert_before (buf : list byte) (i a b : nat) (x : byte) :
  (i < a)%nat → slice (<[i:=x]> buf) a b = slice buf a b.
Proof. intros Hi. unfold slice. by rewrite drop_insert_lt. Qed.

Lemma slice_insert_after (buf : list byte) (i b : nat) (x : byte) :
  (b ≤ i)%nat → slice (<[i:=x]> buf) 0 b = slice buf 0 b.
Proof. intros Hi. unfold slice. cbn [drop]. apply take_insert_ge. lia. Qed.

Lemma be_uint_4 (a b c d : byte) :
  be_uint [a; b; c; d]
  = byte_val a * 2 ^ 24 + byte_val b * 2 ^ 16 + byte_val c * 2 ^ 8 + byte_val d.
Proof. unfold be_uint. cbn [fold_left]. lia. Qed.

Lemma be_uint_2 (a b : byte) : be_uint [a; b] = byte_val a * 2 ^ 8 + byte_val b.
Proof. unfold be_uint. cbn [fold_left]. lia. Qed.

Lemma readUInt32BE_whole (l : list byte) :
  length l = 4%nat → readUInt32BE l 0 = Return (be_uint l).
Proof.
  destruct l as [|a [|b [|c [|d [|]]]]]; try discriminate.
  intros _. by rewrite be_uint_4.
Qed.

Lemma readUInt32BE_short (l : list byte) :
  (length l < 4)%nat → readUInt32BE l 0 = Throw RangeError.
Proof.
  destruct l as [|a [|b [|c [|d l]]]]; cbn; try done. lia.
Qed.

Lemma readUInt16BE_whole (l : list byte) :
  length l = 2%nat → readUInt16BE l 0 = Return (be_uint l).
Proof.
  destruct l as [|a [|b [|]]]; try discriminate.
  intros _. by rewrite be_uint_2.
Qed.

Lemma readUInt16BE_short (l : list byte) :
  (length l < 2)%nat → readUInt16BE l 0 = Throw RangeError.
Proof.
  destruct l as [|a [|b l]]; cbn; try done. lia.
Qed.

(** ** The parser, field by field at absolute offsets *)

Lemma parse_offsets (buf : list byte) :
  parseMakeCredAuthData (JBuf buf) =
    counter ← readUInt32BE (slice buf 33 37) 0;
    credIDLen ← readUInt16BE (slice buf 53 55) 0;
    Return {| rpIdHash := slice buf 0 32;
              flagsBuf := slice buf 32 33;
              flags := buf !! 32%nat;
              counter := counter;
              counterBuf := slice buf 33 37;
              aaguid := slice buf 37 53;
              credID := slice buf 55 (55 + Z.to_nat credIDLen);
              COSEPublicKey := drop (55 + Z.to_nat credIDLen) buf |}.
Proof.
  unfold parseMakeCredAuthData.
  rewrite !drop_drop, !slice_drop.
  change (32 + 1)%nat with 33%nat. change (33 + 4)%nat with 37%nat.
  change (37 + 16)%nat with 53%nat. change (53 + 2)%nat with 55%nat.
  change (0 + 32)%nat with 32%nat.
  destruct (readUInt32BE (slice buf 33 37) 0) as [counter|e]; [|done].
  destruct (readUInt16BE (slice buf 53 55) 0) as [credIDLen|e]; [|done].
  rewrite !bind_Return, drop_drop, slice_drop.
  by rewrite (slice_lookup buf 32 33 0) by lia.
Qed.

Lemma parse_short (buf : list byte) :
  (length buf < 55)%nat → parseMakeCredAuthData (JBuf buf) = Throw RangeError.
Proof.
  intros Hlen. rewrite parse_offsets.
  destruct (decide (length buf < 37)%nat) as [Hc|Hc].
  - rewrite readUInt32BE_short; [done|]. rewrite slice_length. lia.
  - rewrite readUInt32BE_whole by (rewrite slice_length; lia).
    rewrite bind_Return.
    rewrite readUInt16BE_short; [done|]. rewrite slice_length. lia.
Qed.

Lemma parse_long (buf : list byte) :
  (55 ≤ length buf)%nat →
  parseMakeCredAuthData (JBuf buf) =
    Return {| rpIdHash := slice buf 0 32;
              flagsBuf := slice buf 32 33;
              flags := buf !! 32%nat;
              counter := be_uint (slice buf 33 37);
              counterBuf := slice buf 33 37;
              aaguid := slice buf 37 53;
              credID := slice buf 55 (55 + Z.to_nat (declared_credIDLen buf));
              COSEPublicKey := drop (55 + Z.to_nat (declared_credIDLen buf)) buf |}.
Proof.
  intros Hlen. rewrite parse_offsets.
  rewrite readUInt32BE_whole by (rewrite slice_length; lia).
  rewrite bind_Return.
  rewrite readUInt16BE_whole by (rewrite slice_length; lia).
  reflexivity.
Qed.

(** The fields a successful parse consumes, put back together, are the
    buffer. *)
Lemma parse_consumes_all (buf : list byte) (n : nat) :
  slice buf 0 32 ++ slice buf 32 33 ++ slice buf 33 37 ++ slice buf 37 53
  ++ slice buf 53 55 ++ slice buf 55 (55 + n) ++ drop (55 + n) buf = buf.
Proof.
  rewrite slice_all_drop by lia.
  rewrite !slice_all_drop by lia.
  reflexivity.
Qed.

(** C3: a buffer of length 32+1+4+16+2+credIdLen+keyLen whose length field
    at offset 53 is credIdLen parses into rpIdHash = bytes [0,32), flags =
    byte 32, counter = the big-endian value of bytes [33,37), aaguid = bytes
    [37,53), credentialId = the credIdLen bytes from offset 55, and the COSE
    key = the trailing keyLen bytes. *)
Theorem parse_layout (buf : list byte) (credIdLen keyLen : nat) :
  length buf = (32 + 1 + 4 + 16 + 2 + credIdLen + keyLen)%nat →
  declared_credIDLen buf = Z.of_nat credIdLen →
  ∃ r flag,
    parseMakeCredAuthData (JBuf buf) = Return r
    ∧ rpIdHash r = slice buf 0 32 ∧ length (rpIdHash r) = 32%nat
    ∧ buf !! 32%nat = Some flag ∧ flags r = Some flag ∧ flagsBuf r = [flag]
    ∧ counter r = be_uint (slice buf 33 37) ∧ length (counterBuf r) = 4%nat
    ∧ aaguid r = slice buf 37 53 ∧ length (aaguid r) = 16%nat
    ∧ credID r = slice buf 55 (55 + credIdLen)
    ∧ length (credID r) = credIdLen
    ∧ COSEPublicKey r = drop (length buf - keyLen) buf
    ∧ length (COSEPublicKey r) = keyLen.
Proof.
  intros Hlen Hdecl.
  destruct (buf !! 32%nat) as [flag|] eqn:Hflag; last first.
  { apply lookup_ge_None in Hflag. lia. }
  eexists _, flag. split; [by apply parse_long; lia|].
  cbn [rpIdHash flags flagsBuf counter counterBuf aaguid credID COSEPublicKey].
  rewrite Hdecl, Nat2Z.id.
  repeat split; rewrite ?slice_length, ?length_drop; try lia; try done.
  - unfold slice. rewrite (drop_S _ _ _ Hflag). by destruct (drop 33 buf).
  - f_equal. lia.
Qed.

Lemma parse_layout_witness :
  let buf := Reference.auth_data in
  ∃ r flag,
    parseMakeCredAuthData (JBuf buf) = Return r
    ∧ rpIdHash r = slice buf 0 32 ∧ length (rpIdHash r) = 32%nat
    ∧ buf !! 32%nat = Some flag ∧ flags r = Some flag ∧ flagsBuf r = [flag]
    ∧ counter r = be_uint (slice buf 33 37) ∧ length (counterBuf r) = 4%nat
    ∧ aaguid r = slice buf 37 53 ∧ length (aaguid r) = 16%nat
    ∧ credID r = slice buf 55 (55 + 4)
    ∧ length (credID r) = 4%nat
    ∧ COSEPublicKey r = drop (length buf - 77) buf
    ∧ length (COSEPublicKey r) = 77%nat.
Proof.
  apply (parse_layout Reference.auth_data 4 77); reflexivity.
Defined.

(** The claim C4 as stated does not hold: the 58 bytes below declare a
    credentialId of 10 bytes with 3 bytes left after offset 55, and the
    parser returns a record with a 3-byte credentialId and an empty key. *)
Lemma parse_overlong_credID_returns :
  let buf := replicate 53 x00 ++ [x00; x0a; x01; x02; x03] in
  Z.of_nat (length buf - 55) < declared_credIDLen buf
  ∧ ∃ r, parseMakeCredAuthData (JBuf buf) = Return r
         ∧ credID r = [x01; x02; x03] ∧ COSEPublicKey r = [].
Proof.
  cbv zeta. split; [reflexivity|]. eexists. split; [reflexivity|]. by split.
Qed.

(** C4 (amended): a buffer shorter than 55 bytes makes the parser throw (the
    RangeError of a fixed-width read) and no record is returned; a buffer of
    55 bytes or more always parses, the credentialId being the declared
    number of bytes from offset 55 or as many as are left, and the COSE key
    what follows it; the fields of a returned record, put together with the
    length field, are exactly the buffer. *)
Theorem parse_short_or_consumes_all (buf : list byte) :
  ((length buf < 55)%nat ∧ parseMakeCredAuthData (JBuf buf) = Throw RangeError)
  ∨ ((55 ≤ length buf)%nat ∧
     ∃ r, parseMakeCredAuthData (JBuf buf) = Return r
       ∧ credID r = slice buf 55 (55 + Z.to_nat (declared_credIDLen buf))
       ∧ length (credID r)
         = (Z.to_nat (declared_credIDLen buf) `min` (length buf - 55))%nat
       ∧ COSEPublicKey r = drop (55 + Z.to_nat (declared_credIDLen buf)) buf
       ∧ rpIdHash r ++ flagsBuf r ++ counterBuf r ++ aaguid r
         ++ slice buf 53 55 ++ credID r ++ COSEPublicKey r = buf).
Proof.
  destruct (decide (length buf < 55)%nat) as [Hlen|Hlen].
  - left. split; [done|]. by apply parse_short.
  - right. split; [lia|]. eexists. split; [by apply parse_long; lia|].
    cbn [rpIdHash flagsBuf counterBuf aaguid credID COSEPublicKey].
    repeat split.
    + rewrite slice_length. lia.
    + apply parse_consumes_all.
Qed.

(** ** The orchestrator *)

Section Orchestrator.
Context `{Required}.

(** The orchestrator is its first three steps followed by [attest]. *)
Lemma verify_steps (resp : WebAuthnResponse) :
  verifyFidoU2fAttestation resp =
    items ← decode_attestation (attestationObject (response resp));
    let ctap := default JUndefined (items !! 0%nat) in
    authData ← get_prop ctap "authData";
    r ← parseMakeCredAuthData authData;
    if Z.eqb (flags_and (flags r) U2F_USER_PRESENTED) 0
    then Throw user_not_present
    else attest ctap (clientDataJSON (response resp))
           (rpIdHash r) (credID r) (COSEPublicKey r).
Proof.
  unfold verifyFidoU2fAttestation, decode_attestation.
  destruct (call base64url (base64url_toBuffer (attestationObject _)))
    as [buf|e]; [|done].
  rewrite !bind_Return.
  by destruct (call cbor _) as [items|e].
Qed.

Lemma attest_steps (ctap : jsval) (cd : string) (rp cid key : list byte) :
  attest ctap cd rp cid key =
    clientData ← call base64url (base64url_toBuffer cd);
    publicKey ← COSEECDHAtoPKCS key;
    verify_statement ctap ([x00] ++ rp ++ hash clientData ++ cid ++ publicKey).
Proof.
  unfold attest, verify_statement.
  destruct (call base64url _) as [clientData|e]; [|done].
  rewrite !bind_Return.
  destruct (COSEECDHAtoPKCS key) as [publicKey|e]; [|done].
  cbn [Buffer_concat]. rewrite !bind_Return.
  by rewrite app_nil_r.
Qed.

Lemma verify_statement_attStmt (ctap ctap' : jsval) (data : list byte) :
  get_prop ctap "attStmt" = get_prop ctap' "attStmt" →
  verify_statement ctap data = verify_statement ctap' data.
Proof. intros Heq. unfold verify_statement. by rewrite Heq. Qed.

(** Of the attestation object, [attest] reads the attestation statement
    only. *)
Lemma attest_attStmt (ctap ctap' : jsval) (cd : string) (rp cid key : list byte) :
  get_prop ctap "attStmt" = get_prop ctap' "attStmt" →
  attest ctap cd rp cid key = attest ctap' cd rp cid key.
Proof.
  intros Heq. rewrite !attest_steps.
  destruct (call base64url _) as [clientData|e]; [|done].
  rewrite !bind_Return.
  destruct (COSEECDHAtoPKCS key) as [publicKey|e]; [|done].
  rewrite !bind_Return. by apply verify_statement_attStmt.
Qed.
End Orchestrator.

(** ** User presence *)

Lemma land_1_testbit (a : Z) : Z.land a 1 = Z.b2z (Z.testbit a 0).
Proof. rewrite Z.bit0_mod. exact (Z.land_ones a 1 ltac:(lia)). Qed.

Lemma flags_and_present (flag : byte) :
  Z.eqb (flags_and (Some flag) U2F_USER_PRESENTED) 0
  = negb (Z.testbit (byte_val flag) 0).
Proof.
  unfold flags_and, U2F_USER_PRESENTED. cbn [from_option].
  rewrite land_1_testbit. by destruct (Z.testbit (byte_val flag) 0).
Qed.

(** A parsed record always has its flags byte. *)
Lemma parse_returns_flags (authData : jsval) (r : AuthData) :
  parseMakeCredAuthData authData = Return r →
  ∃ buf flag, authData = JBuf buf ∧ (55 ≤ length buf)%nat
              ∧ buf !! 32%nat = Some flag ∧ flags r = Some flag.
Proof.
  destruct authData as [| | | | |buf| | |]; try discriminate.
  intros Hr. destruct (decide (length buf < 55)%nat) as [Hlen|Hlen].
  { rewrite parse_short in Hr by done. discriminate. }
  rewrite parse_long in Hr by lia. injection Hr as <-. cbn [flags].
  destruct (buf !! 32%nat) as [flag|] eqn:Hflag.
  - exists buf, flag. repeat split; [lia|done].
  - apply lookup_ge_None in Hflag. lia.
Qed.

Lemma other_failure_bind {A B} (m : result A) (f : A → result B) :
  other_failure m → (∀ a, other_failure (f a)) → other_failure (m ≫= f).
Proof.
  intros Hm Hf. destruct m as [a|e]; [apply Hf|].
  intros [= ->]. by apply Hm.
Qed.

Lemma other_failure_call {A} (lib : extern) (r : string + A) :
  other_failure (call lib r).
Proof. by destruct r. Qed.

Lemma other_failure_get_prop (o : jsval) (name : string) :
  other_failure (get_prop o name).
Proof. by destruct o. Qed.

Lemma other_failure_get_index0 (o : jsval) : other_failure (get_index0 o).
Proof. destruct o as [| | | |[|c s]| | | |]; done. Qed.

Lemma other_failure_call_get (o : jsval) (k : Z) : other_failure (call_get o k).
Proof. by destruct o. Qed.

Lemma other_failure_concat (l : list jsval) : other_failure (Buffer_concat l).
Proof.
  induction l as [|v l IH]; [done|].
  destruct v; try done. cbn [Buffer_concat].
  apply other_failure_bind; [exact IH | done].
Qed.

Lemma other_failure_ASN1toPEM (v : jsval) : other_failure (ASN1toPEM v).
Proof.
  destruct v as [| | | | |buf| | |]; try done.
  unfold ASN1toPEM. by destruct (_ && _).
Qed.

Create HintDb other_failure.

#[local] Hint Resolve other_failure_call other_failure_get_prop
  other_failure_get_index0 other_failure_call_get other_failure_concat
  other_failure_ASN1toPEM : other_failure.

Section Presence.
Context `{Required}.

Lemma other_failure_attest (ctap : jsval) (cd : string) (rp cid key : list byte) :
  other_failure (attest ctap cd rp cid key).
Proof.
  unfold attest, COSEECDHAtoPKCS, verifySignature.
  repeat first
    [ solve [auto with other_failure]
    | apply other_failure_bind; [|intros ?] ].
Qed.

(** Another flags byte with bit 0 set changes nothing of what [attest] is
    given. *)
Lemma parse_other_flags (buf : list byte) (flag' : byte) :
  (55 ≤ length buf)%nat →
  ∃ r r',
    parseMakeCredAuthData (JBuf buf) = Return r
    ∧ parseMakeCredAuthData (JBuf (<[32%nat:=flag']> buf)) = Return r'
    ∧ flags r' = Some flag'
    ∧ rpIdHash r' = rpIdHash r ∧ credID r' = credID r
    ∧ COSEPublicKey r' = COSEPublicKey r.
Proof.
  intros Hlen. eexists _, _.
  split; [by apply parse_long|].
  split; [apply parse_long; by rewrite length_insert|].
  cbn [flags rpIdHash credID COSEPublicKey]. unfold declared_credIDLen.
  rewrite list_lookup_insert_eq by lia.
  rewrite slice_insert_after by lia.
  rewrite !slice_insert_before by lia.
  by rewrite drop_insert_lt by lia.
Qed.

(** C6: once the authenticator data is parsed, verification fails with the
    user-presence error exactly when bit 0 of the flags byte (offset 32) is
    0; when the bit is 1 the pipeline goes on with lines 129-137, and the
    result is the same for any other value of the flags byte that has bit 0
    set. *)
Theorem user_presence_gate (resp : WebAuthnResponse) (items : list jsval)
    (buf : list byte) (r : AuthData) :
  decode_attestation (attestationObject (response resp)) = Return items →
  get_prop (default JUndefined (items !! 0%nat)) "authData" = Return (JBuf buf) →
  parseMakeCredAuthData (JBuf buf) = Return r →
  ∃ flag,
    buf !! 32%nat = Some flag
    ∧ flags r = Some flag
    ∧ (verifyFidoU2fAttestation resp = Throw user_not_present
       ↔ Z.testbit (byte_val flag) 0 = false)
    ∧ (Z.testbit (byte_val flag) 0 = true →
       verifyFidoU2fAttestation resp
       = attest (default JUndefined (items !! 0%nat))
           (clientDataJSON (response resp))
           (rpIdHash r) (credID r) (COSEPublicKey r)
       ∧ ∀ (resp' : WebAuthnResponse) (items' : list jsval) (flag' : byte),
           Z.testbit (byte_val flag') 0 = true →
           decode_attestation (attestationObject (response resp'))
           = Return items' →
           get_prop (default JUndefined (items' !! 0%nat)) "authData"
           = Return (JBuf (<[32%nat:=flag']> buf)) →
           get_prop (default JUndefined (items' !! 0%nat)) "attStmt"
           = get_prop (default JUndefined (items !! 0%nat)) "attStmt" →
           clientDataJSON (response resp') = clientDataJSON (response resp) →
           verifyFidoU2fAttestation resp' = verifyFidoU2fAttestation resp).
Proof.
  intros Hitems HauthData Hr.
  destruct (parse_returns_flags _ _ Hr)
    as (buf0 & flag & [= <-] & Hlen & Hbuf & Hflag).
  exists flag. split; [done|]. split; [done|].
  assert (verifyFidoU2fAttestation resp
          = if negb (Z.testbit (byte_val flag) 0) then Throw user_not_present
            else attest (default JUndefined (items !! 0%nat))
                   (clientDataJSON (response resp))
                   (rpIdHash r) (credID r) (COSEPublicKey r)) as Hresp.
  { rewrite verify_steps, Hitems, bind_Return. cbv zeta.
    by rewrite HauthData, bind_Return, Hr, bind_Return, Hflag,
      flags_and_present. }
  rewrite Hresp.
  destruct (Z.testbit (byte_val flag) 0); cbn [negb].
  - split.
    { split; [|done]. intros Habs. by apply other_failure_attest in Habs. }
    intros _. split; [done|].
    intros resp' items' flag' Hbit Hitems' HauthData' HattStmt Hcd.
    destruct (parse_other_flags buf flag' Hlen)
      as (r0 & r' & Hr0 & Hr' & Hflag' & Hrp & Hcid & Hkey).
    rewrite Hr in Hr0. injection Hr0 as <-.
    rewrite verify_steps, Hitems', bind_Return. cbv zeta.
    rewrite HauthData', bind_Return, Hr', bind_Return, Hflag',
      flags_and_present, Hbit. cbn [negb].
    rewrite Hrp, Hcid, Hkey, Hcd. by apply attest_attStmt.
  - split; [done|]. discriminate.
Qed.
End Presence.

Lemma user_presence_gate_witness :
  let resp := Reference.response_of Reference.attestation in
  let resp' :=
    Reference.response_of
      (Reference.attestation_with
         (Reference.toy_digest Reference.signature_base)
         (Reference.auth_data_with xc5 Reference.cose_key)) in
  (@verifyFidoU2fAttestation Reference.modules resp = Throw user_not_present
   ↔ Z.testbit (byte_val x41) 0 = false)
  ∧ @verifyFidoU2fAttestation Reference.modules resp'
    = @verifyFidoU2fAttestation Reference.modules resp.
Proof.
  intros resp resp'.
  destruct (parseMakeCredAuthData (JBuf Reference.auth_data)) as [r|e] eqn:Hr;
    [|exfalso; vm_compute in Hr; discriminate].
  destruct (@user_presence_gate Reference.modules resp
              (Reference.items_of Reference.attestation)
              Reference.auth_data r)
    as (flag & Hbuf & _ & Hiff & Hset).
  - vm_compute. reflexivity.
  - vm_compute. reflexivity.
  - exact Hr.
  - vm_compute in Hbuf. injection Hbuf as <-.
    split; [exact Hiff|].
    destruct (Hset eq_refl) as [_ Hother].
    apply (Hother resp'
             (Reference.items_of
                (Reference.attestation_with
                   (Reference.toy_digest Reference.signature_base)
                   (Reference.auth_data_with xc5 Reference.cose_key)))
             xc5);
      vm_compute; reflexivity.
Defined.

(** ** The COSE key converter *)

Section Converter.
Context `{Required}.

Lemma cose_returns (key x y : list byte) :
  has_coordinates key x y → COSEECDHAtoPKCS key = Return ([x04] ++ x ++ y).
Proof.
  intros (items & entries & Hitems & Hfirst & Hx & Hy).
  unfold COSEECDHAtoPKCS. rewrite Hitems. cbn [call].
  rewrite bind_Return. cbv zeta. rewrite Hfirst.
  cbn [default from_option id call_get]. rewrite !bind_Return, Hx, Hy.
  cbn. by rewrite app_nil_r.
Qed.


End Converter.



(** ** Decoding failures *)

Section Decoding.
Context `{Required}.

Lemma verify_decode_throws (resp : WebAuthnResponse) (e : exn) :
  decode_attestation (attestationObject (response resp)) = Throw e →
  verifyFidoU2fAttestation resp = Throw e.
Proof. intros He. by rewrite verify_steps, He. Qed.

Lemma verify_decode_nothing (resp : WebAuthnResponse) :
  decode_attestation (attestationObject (response resp)) = Return [] →
  verifyFidoU2fAttestation resp = Throw TypeError.
Proof. intros He. by rewrite verify_steps, He. Qed.

(** The claim C9 as stated does not hold: [base64url.toBuffer] rejects no
    string.  The string below starts with a character that is not of the
    base64url alphabet; the character is skipped, the rest decodes to the
    attestation object, and the result is [true]. *)
Lemma invalid_base64url_verifies :
  let s := String "!" (Reference.base64url_encode Reference.attestation) in
  is_base64url s = false
  ∧ @verifyFidoU2fAttestation Reference.modules
      {| response :=
           {| attestationObject := s;
              clientDataJSON :=
                Reference.base64url_encode Reference.client_data |} |}
    = Return true.
Proof. split; vm_compute; reflexivity. Qed.

(** C9 (amended): when the bytes that [base64url.toBuffer] makes of the
    attestationObject string are rejected by [cbor.decodeAllSync], or hold
    no item at all, the verifier throws and returns no boolean, [false]
    included: the decoder's exception goes through unchanged, and with no
    item it is the TypeError of reading [authData] of [undefined]. *)
Theorem undecodable_attestation_throws (resp : WebAuthnResponse)
    (buf : list byte) :
  base64url_toBuffer (attestationObject (response resp)) = inr buf →
  (∃ msg, cbor_decodeAllSync buf = inl msg) ∨ cbor_decodeAllSync buf = inr [] →
  throws (verifyFidoU2fAttestation resp)
  ∧ (∀ b, verifyFidoU2fAttestation resp ≠ Return b)
  ∧ (∀ msg, cbor_decodeAllSync buf = inl msg →
            verifyFidoU2fAttestation resp = Throw (Thrown cbor msg))
  ∧ (cbor_decodeAllSync buf = inr [] →
     verifyFidoU2fAttestation resp = Throw TypeError).
Proof.
  intros Hbuf Hcbor.
  assert (∀ msg, cbor_decodeAllSync buf = inl msg →
                 verifyFidoU2fAttestation resp = Throw (Thrown cbor msg))
    as Hthrown.
  { intros msg Hmsg. apply verify_decode_throws.
    unfold decode_attestation. rewrite Hbuf. cbn [call].
    by rewrite bind_Return, Hmsg. }
  assert (cbor_decodeAllSync buf = inr [] →
          verifyFidoU2fAttestation resp = Throw TypeError) as Hnothing.
  { intros Hnone. apply verify_decode_nothing.
    unfold decode_attestation. rewrite Hbuf. cbn [call].
    by rewrite bind_Return, Hnone. }
  assert (throws (verifyFidoU2fAttestation resp)) as [e He].
  { destruct Hcbor as [[msg Hmsg]|Hnone].
    - eexists. by apply Hthrown.
    - eexists. by apply Hnothing. }
  split; [by exists e|]. split; [by rewrite He|]. by split.
Qed.
End Decoding.

Lemma undecodable_attestation_throws_witness :
  let resp := Reference.response_of Reference.truncated in
  throws (@verifyFidoU2fAttestation Reference.modules resp)
  ∧ ∀ b, @verifyFidoU2fAttestation Reference.modules resp ≠ Return b.
Proof.
  intros resp.
  destruct (@undecodable_attestation_throws Reference.modules resp
              Reference.truncated)
    as (Hthrows & Hbool & _).
  - vm_compute. reflexivity.
  - left. eexists. vm_compute. reflexivity.
  - by split.
Defined.

(** ** The signature base *)

Lemma parse_rpIdHash_length (authData : jsval) (r : AuthData) :
  parseMakeCredAuthData authData = Return r → length (rpIdHash r) = 32%nat.
Proof.
  intros Hr.
  destruct (parse_returns_flags _ _ Hr) as (buf & flag & -> & Hlen & _).
  rewrite parse_long in Hr by done. injection Hr as <-. cbn [rpIdHash].
  rewrite slice_length. lia.
Qed.

Lemma toy_digest_length (data : list byte) :
  length (Reference.toy_digest data) = 32%nat.
Proof.
  unfold Reference.toy_digest. cbn [length].
  rewrite length_take, length_app, length_replicate. lia.
Qed.

Section SignatureBase.
Context `{Required}.

(** The claim C2 as stated does not hold for the size of the point: the
    code does not check the coordinates.  With the key [odd_key], whose x
    has 31 bytes, the input reaches the verifier, which is handed the 133
    bytes of [odd_base], ending in a point of 64 bytes. *)
Lemma odd_key_base_has_133_bytes :
  @verifyFidoU2fAttestation
    (Reference.exact_modules Reference.odd_base
       (Reference.toy_digest Reference.signature_base))
    (Reference.response_of
       (Reference.attestation_auth
          (Reference.auth_data_with x41 Reference.odd_key)))
  = Return true
  ∧ length Reference.odd_base = 133%nat
  ∧ length ([x04] ++ replicate 31 x17 ++ Reference.Y) = 64%nat.
Proof. repeat split; vm_compute; reflexivity. Qed.

(** C2 (amended): when steps 1 to 5 succeed, the data the signature verifier
    is called on is 0x00 ‖ rpIdHash ‖ SHA-256(decoded clientDataJSON) ‖
    credentialId ‖ 0x04 ‖ x ‖ y, in this order and with nothing else;
    rpIdHash has 32 bytes, the digest 32 (what SHA-256 gives), and the point
    1 + |x| + |y| bytes, whatever the lengths of x and y are: 65 bytes
    exactly when x and y have 64 bytes together, as the 32-byte coordinates
    of a P-256 key have. *)
Theorem signature_base_layout (resp : WebAuthnResponse) (items : list jsval)
    (authData : jsval) (r : AuthData) (clientData x y : list byte) :
  (∀ d, length (crypto_sha256_digest d) = 32%nat) →
  decode_attestation (attestationObject (response resp)) = Return items →
  get_prop (default JUndefined (items !! 0%nat)) "authData" = Return authData →
  parseMakeCredAuthData authData = Return r →
  flags_and (flags r) U2F_USER_PRESENTED ≠ 0 →
  base64url_toBuffer (clientDataJSON (response resp)) = inr clientData →
  has_coordinates (COSEPublicKey r) x y →
  let ctap := default JUndefined (items !! 0%nat) in
  let data :=
    [x00] ++ rpIdHash r ++ crypto_sha256_digest clientData ++ credID r
    ++ ([x04] ++ x ++ y) in
  verifyFidoU2fAttestation resp = verify_statement ctap data
  ∧ (∀ attStmt x5c leaf pem signature,
       get_prop ctap "attStmt" = Return attStmt →
       get_prop attStmt "x5c" = Return x5c →
       get_index0 x5c = Return leaf →
       ASN1toPEM leaf = Return pem →
       get_prop attStmt "sig" = Return signature →
       verifyFidoU2fAttestation resp
       = call crypto (crypto_sha256_verify data pem signature))
  ∧ length (rpIdHash r) = 32%nat
  ∧ length (crypto_sha256_digest clientData) = 32%nat
  ∧ length ([x04] ++ x ++ y) = (1 + length x + length y)%nat
  ∧ (length ([x04] ++ x ++ y) = 65%nat ↔ (length x + length y = 64)%nat)
  ∧ length data = (66 + length (credID r) + length x + length y)%nat.
Proof.
  intros Hdigest Hitems HauthData Hr Hup HclientData Hxy ctap data.
  assert (verifyFidoU2fAttestation resp = verify_statement ctap data) as Hcall.
  { rewrite verify_steps, Hitems, bind_Return. cbv zeta.
    rewrite HauthData, bind_Return, Hr, bind_Return.
    apply Z.eqb_neq in Hup. rewrite Hup.
    rewrite attest_steps, HclientData. cbn [call].
    by rewrite bind_Return, (cose_returns _ x y Hxy), bind_Return. }
  pose proof (parse_rpIdHash_length _ _ Hr) as Hrp.
  split; [exact Hcall|].
  split; [|split; [exact Hrp|split; [apply Hdigest|]]].
  - intros attStmt x5c leaf pem signature HattStmt Hx5c Hleaf Hpem Hsig.
    rewrite Hcall. unfold verify_statement.
    by rewrite HattStmt, bind_Return, Hx5c, bind_Return, Hleaf, bind_Return,
      Hpem, bind_Return, Hsig, bind_Return.
  - unfold data. rewrite !length_app, Hdigest, Hrp. cbn [length].
    repeat split; lia.
Qed.
End SignatureBase.

Lemma signature_base_layout_witness :
  let data :=
    [x00] ++ Reference.rp ++ Reference.toy_digest Reference.client_data
    ++ Reference.cred ++ ([x04] ++ Reference.X ++ Reference.Y) in
  @verifyFidoU2fAttestation
    (Reference.exact_modules data
       (Reference.toy_digest Reference.signature_base))
    (Reference.response_of Reference.attestation)
  = Return true
  ∧ length data = 134%nat.
Proof.
  intros data.
  set (M := Reference.exact_modules data
              (Reference.toy_digest Reference.signature_base)).
  destruct (parseMakeCredAuthData (JBuf Reference.auth_data)) as [r|e] eqn:Hr;
    [|exfalso; vm_compute in Hr; discriminate].
  destruct (@signature_base_layout M
              (Reference.response_of Reference.attestation)
              (Reference.items_of Reference.attestation)
              (JBuf Reference.auth_data) r Reference.client_data
              Reference.X Reference.Y)
    as (_ & Hcall & _ & _ & _ & _ & Hlen).
  - exact toy_digest_length.
  - vm_compute. reflexivity.
  - vm_compute. reflexivity.
  - exact Hr.
  - vm_compute in Hr. injection Hr as <-. vm_compute. discriminate.
  - vm_compute. reflexivity.
  - vm_compute in Hr. injection Hr as <-.
    eexists _, _. repeat split; vm_compute; reflexivity.
  - vm_compute in Hr. injection Hr as <-.
    split; [|vm_compute; reflexivity].
    rewrite (Hcall (JObj (Reference.fields_of
                            (default JUndefined
                               (Reference.fields_of
                                  (Reference.first_of Reference.attestation)
                                !! "attStmt"))))
               (JArr [JBuf Reference.cert]) (JBuf Reference.cert)
               (match ASN1toPEM (JBuf Reference.cert) with
                | Return pem => pem
                | Throw _ => ""
                end)
               (JBuf (Reference.toy_digest Reference.signature_base)));
      vm_compute; reflexivity.
Defined.

(** ** Items after the first *)

Lemma slice_app_l (l k : list byte) (a b : nat) :
  (b ≤ length l)%nat → slice (l ++ k) a b = slice l a b.
Proof.
  intros Hb. unfold slice.
  destruct (decide (a ≤ length l)%nat) as [Ha|Ha].
  - rewrite drop_app_le by done. apply take_app_le. rewrite length_drop. lia.
  - by replace (b - a)%nat with 0%nat by lia.
Qed.

Section Trailing.
Context `{Required}.

(** Only the first item of the key matters. *)
Lemma cose_first_item (key key' : list byte) (v : jsval) (vs vs' : list jsval) :
  cbor_decodeAllSync key = inr (v :: vs) →
  cbor_decodeAllSync key' = inr (v :: vs') →
  COSEECDHAtoPKCS key = COSEECDHAtoPKCS key'.
Proof. intros Hk Hk'. unfold COSEECDHAtoPKCS. by rewrite Hk, Hk'. Qed.

(** C10: at both decoding sites only the first item is used.  (1) If the
    bytes of the attestationObject are a first item followed by further
    items, the result is that of the input cut after the first item.  (2) If
    the bytes after the credentialId are a COSE key followed by further
    items, the result is that of the authenticator data cut after the
    key. *)
Theorem trailing_items_ignored :
  (∀ (resp resp' : WebAuthnResponse) (first rest : list byte) (v : jsval)
     (vs : list jsval),
     base64url_toBuffer (attestationObject (response resp)) = inr (first ++ rest) →
     base64url_toBuffer (attestationObject (response resp')) = inr first →
     cbor_decodeAllSync (first ++ rest) = inr (v :: vs) →
     cbor_decodeAllSync first = inr [v] →
     clientDataJSON (response resp) = clientDataJSON (response resp') →
     verifyFidoU2fAttestation resp = verifyFidoU2fAttestation resp')
  ∧ (∀ (resp resp' : WebAuthnResponse) (items items' : list jsval)
       (authData rest : list byte) (v : jsval) (vs : list jsval),
       let ctap := default JUndefined (items !! 0%nat) in
       let ctap' := default JUndefined (items' !! 0%nat) in
       let key := drop (55 + Z.to_nat (declared_credIDLen authData)) authData in
       decode_attestation (attestationObject (response resp)) = Return items →
       decode_attestation (attestationObject (response resp')) = Return items' →
       get_prop ctap "authData" = Return (JBuf (authData ++ rest)) →
       get_prop ctap' "authData" = Return (JBuf authData) →
       get_prop ctap "attStmt" = get_prop ctap' "attStmt" →
       clientDataJSON (response resp) = clientDataJSON (response resp') →
       (55 + Z.to_nat (declared_credIDLen authData) ≤ length authData)%nat →
       cbor_decodeAllSync (key ++ rest) = inr (v :: vs) →
       cbor_decodeAllSync key = inr [v] →
       verifyFidoU2fAttestation resp = verifyFidoU2fAttestation resp').
Proof.
  split.
  - intros resp resp' first rest v vs Hbuf Hbuf' Hitems Hitems' Hcd.
    rewrite !verify_steps. unfold decode_attestation.
    rewrite Hbuf, Hbuf'. cbn [call]. rewrite !bind_Return, Hitems, Hitems'.
    by rewrite Hcd.
  - intros resp resp' items items' authData rest v vs ctap ctap' key
      Hitems Hitems' HauthData HauthData' HattStmt Hcd Hlen Hkey Hkey'.
    rewrite !verify_steps, Hitems, Hitems', !bind_Return. cbv zeta.
    fold ctap ctap'. rewrite HauthData, HauthData', !bind_Return.
    rewrite !parse_long by (rewrite ?length_app; lia).
    rewrite !bind_Return. cbn [flags rpIdHash credID COSEPublicKey].
    assert (declared_credIDLen (authData ++ rest) = declared_credIDLen authData)
      as -> by (unfold declared_credIDLen; rewrite slice_app_l; [done|lia]).
    rewrite lookup_app_l by lia.
    rewrite !slice_app_l by lia.
    rewrite drop_app_le by lia. fold key.
    destruct (_ =? 0); [done|].
    rewrite !attest_steps, Hcd.
    destruct (call base64url _) as [clientData|e]; [|done].
    rewrite !bind_Return, (cose_first_item _ key v vs [] Hkey Hkey').
    destruct (COSEECDHAtoPKCS key) as [publicKey|e]; [|done].
    rewrite !bind_Return. by apply verify_statement_attStmt.
Qed.
End Trailing.

Lemma trailing_items_ignored_witness :
  @verifyFidoU2fAttestation Reference.modules
    (Reference.response_of (Reference.attestation ++ Reference.trailing))
  = @verifyFidoU2fAttestation Reference.modules
      (Reference.response_of Reference.attestation)
  ∧ @verifyFidoU2fAttestation Reference.modules
      (Reference.response_of
         (Reference.attestation_with
            (Reference.toy_digest Reference.signature_base)
            (Reference.auth_data ++ Reference.trailing)))
    = @verifyFidoU2fAttestation Reference.modules
        (Reference.response_of Reference.attestation).
Proof.
  split.
  - apply (proj1 (@trailing_items_ignored Reference.modules) _ _
             Reference.attestation Reference.trailing
             (Reference.first_of Reference.attestation)
             [JArr [JNum 1; JNum 2]]);
      vm_compute; reflexivity.
  - apply (proj2 (@trailing_items_ignored Reference.modules) _ _
             (Reference.items_of
                (Reference.attestation_with
                   (Reference.toy_digest Reference.signature_base)
                   (Reference.auth_data ++ Reference.trailing)))
             (Reference.items_of Reference.attestation)
             Reference.auth_data Reference.trailing
             (Reference.first_of Reference.cose_key)
             [JArr [JNum 1; JNum 2]]);
      try (vm_compute; reflexivity).
    vm_compute. lia.
Defined.

(** ** Strings *)

Lemma append_nil_l (t : string) : "" +:+ t = t.
Proof. reflexivity. Qed.

Lemma append_cons (c : ascii) (s t : string) : String c s +:+ t = String c (s +:+ t).
Proof. reflexivity. Qed.

Lemma append_nil_r (s : string) : s +:+ "" = s.
Proof. induction s as [|c s IH]; [done|]. by rewrite append_cons, IH. Qed.

Lemma append_assoc (s t u : string) : (s +:+ t) +:+ u = s +:+ (t +:+ u).
Proof. induction s as [|c s IH]; [done|]. by rewrite !append_cons, IH. Qed.

Lemma length_append (s t : string) :
  String.length (s +:+ t) = (String.length s + String.length t)%nat.
Proof. induction s as [|c s IH]; [done|]. rewrite append_cons. cbn. by rewrite IH. Qed.

Lemma concat_cons (x : string) (xs : list string) :
  String.concat "" (x :: xs) = x +:+ String.concat "" xs.
Proof. destruct xs; cbn [String.concat]; [by rewrite append_nil_r|done]. Qed.

Lemma concat_app (xs ys : list string) :
  String.concat "" (xs ++ ys) = String.concat "" xs +:+ String.concat "" ys.
Proof.
  induction xs as [|x xs IH]; [done|].
  by rewrite <- app_comm_cons, !concat_cons, IH, append_assoc.
Qed.

Lemma substring_0_0 (s : string) : String.substring 0 0 s = "".
Proof. by destruct s. Qed.

Lemma substring_nil (k m : nat) : String.substring k m "" = "".
Proof. by destruct k, m. Qed.

Lemma substring_S_cons (k m : nat) (c : ascii) (s : string) :
  String.substring (S k) m (String c s) = String.substring k m s.
Proof. reflexivity. Qed.

Lemma substring_0_S_cons (m : nat) (c : ascii) (s : string) :
  String.substring 0 (S m) (String c s) = String c (String.substring 0 m s).
Proof. reflexivity. Qed.

Lemma substring_empty (s : string) (k : nat) : String.substring k 0 s = "".
Proof.
  revert k. induction s as [|c s IH]; intros k; [apply substring_nil|].
  destruct k as [|k]; [done|]. by rewrite substring_S_cons.
Qed.

Lemma substring_length (s : string) (k m : nat) :
  String.length (String.substring k m s) = (m `min` (String.length s - k))%nat.
Proof.
  revert k m. induction s as [|c s IH]; intros k m.
  - rewrite substring_nil. cbn. lia.
  - destruct k as [|k].
    + destruct m as [|m]; [by rewrite substring_0_0|].
      rewrite substring_0_S_cons. cbn [String.length]. rewrite IH. lia.
    + rewrite substring_S_cons, IH. cbn [String.length]. lia.
Qed.

(** A substring is its first [a] characters followed by the rest. *)
Lemma substring_split (s : string) (k a b : nat) :
  String.substring k (a + b) s
  = String.substring k a s +:+ String.substring (k + a) b s.
Proof.
  revert k a. induction s as [|c s IH]; intros k a.
  - by rewrite !substring_nil.
  - destruct k as [|k].
    + destruct a as [|a]; [by rewrite substring_0_0|].
      cbn [Nat.add]. rewrite !substring_0_S_cons, substring_S_cons, append_cons.
      f_equal. apply (IH 0%nat a).
    + cbn [Nat.add]. rewrite !substring_S_cons. apply IH.
Qed.

Lemma substring_0_all (s : string) (m : nat) :
  (String.length s ≤ m)%nat → String.substring 0 m s = s.
Proof.
  revert m. induction s as [|c s IH]; intros m Hm.
  - apply substring_nil.
  - destruct m as [|m]; [cbn in Hm; lia|].
    rewrite substring_0_S_cons, IH; [done|]. cbn in Hm. lia.
Qed.

(** ** Wrapping at 64 characters *)

(** The loop of lines 109-114 appends the lines one by one. *)
Lemma wrap_loop (f : nat → string) (l : list nat) (acc : string) :
  fold_left (λ PEMKey i, PEMKey +:+ (f i +:+ LF)) l acc
  = acc +:+ String.concat "" (map (λ l, l +:+ LF) (map f l)).
Proof.
  revert acc. induction l as [|i l IH]; intros acc.
  - cbn. by rewrite append_nil_r.
  - cbn [fold_left map]. by rewrite IH, concat_cons, append_assoc.
Qed.

(** [n] consecutive pieces of 64 characters from offset [k] on. *)
Lemma pieces_concat (s : string) (n k : nat) :
  String.concat "" (map (λ i, String.substring (k + 64 * i) 64 s) (seq 0 n))
  = String.substring k (64 * n) s.
Proof.
  revert k. induction n as [|n IH]; intros k.
  - by rewrite Nat.mul_0_r, substring_empty.
  - rewrite <- cons_seq, <- fmap_S_seq. cbn [map]. rewrite concat_cons.
    replace (64 * S n)%nat with (64 + 64 * n)%nat by lia.
    rewrite substring_split, Nat.add_0_r. f_equal.
    rewrite <- (IH (k + 64)%nat), <- list_fmap_compose.
    f_equal. apply list_fmap_ext. intros _ i _. cbn. f_equal. lia.
Qed.

Lemma ceil_div_64 (n : nat) :
  (n ≤ 64 * ceil_div n 64)%nat
  ∧ (64 * ceil_div n 64 < n + 64)%nat.
Proof.
  unfold ceil_div. cbn [Nat.sub].
  pose proof (Nat.div_mod_eq (n + 63) 64).
  pose proof (Nat.mod_upper_bound (n + 63) 64).
  lia.
Qed.

(** The lines the loop cuts are the text wrapped at 64 characters. *)
Lemma lines_wrapped (s : string) :
  wrapped 64 s
    (map (λ i, String.substring (64 * i) 64 s)
         (seq 0 (ceil_div (String.length s) 64))).
Proof.
  pose proof (ceil_div_64 (String.length s)) as [Hle Hlt].
  split; [|split].
  - rewrite (pieces_concat s _ 0). by apply substring_0_all.
  - apply Forall_forall. intros l Hl.
    apply list_elem_of_fmap in Hl as (i & -> & Hi).
    apply elem_of_seq in Hi. rewrite substring_length. lia.
  - intros i l Hi Hl. rewrite length_map, length_seq in Hi.
    rewrite list_lookup_fmap in Hl.
    destruct (seq 0 _ !! i) as [j|] eqn:Hj; [|done].
    apply lookup_seq in Hj as [-> _]. injection Hl as <-.
    rewrite substring_length. lia.
Qed.

(** ** The DER/PEM encoder *)

Lemma spki_prefix_hex :
  Buffer_from_hex "3059301306072a8648ce3d020106082a8648ce3d030107034200"
  = spki_prefix.
Proof. reflexivity. Qed.

Lemma raw_point_test (buf : list byte) :
  Nat.eqb (length buf) 65 && from_option (Byte.eqb x04) false (buf !! 0%nat) = true
  ↔ is_raw_point buf.
Proof.
  unfold is_raw_point. rewrite andb_true_iff, Nat.eqb_eq.
  destruct (buf !! 0%nat) as [b|]; cbn [from_option].
  - split; intros [Hlen Hb]; (split; [done|]).
    + by rewrite (Byte.byte_dec_bl _ _ Hb).
    + injection Hb as ->. by apply Byte.byte_dec_lb.
  - split; intros [_ [=]].
Qed.

Lemma ASN1toPEM_lines (buf : list byte) :
  let raw :=
    Nat.eqb (length buf) 65 && from_option (Byte.eqb x04) false (buf !! 0%nat) in
  let der := if raw then spki_prefix ++ buf else buf in
  ASN1toPEM (JBuf buf)
  = Return
      (pem_block (if raw then "PUBLIC KEY" else "CERTIFICATE")
         (map (λ i, String.substring (64 * i) 64 (toString_base64 der))
              (seq 0 (ceil_div (String.length (toString_base64 der)) 64)))).
Proof.
  intros raw der. unfold ASN1toPEM. fold raw. rewrite spki_prefix_hex.
  unfold der. destruct raw; cbv zeta; rewrite wrap_loop; reflexivity.
Qed.

(** C7: a 65-byte buffer that starts with 0x04 is encoded as the 26-byte
    SubjectPublicKeyInfo prefix (hex 3059301306072a8648ce3d020106082a8648ce
    3d030107034200) followed by the buffer, in a "PUBLIC KEY" block; any
    other buffer is encoded as it is, in a "CERTIFICATE" block; in both
    cases the body is the base64 text wrapped at 64 characters per line
    between the BEGIN and END lines. *)
Theorem pem_encoding (buf : list byte) :
  (is_raw_point buf →
   ∃ lines,
     ASN1toPEM (JBuf buf) = Return (pem_block "PUBLIC KEY" lines)
     ∧ wrapped 64 (toString_base64 (spki_prefix ++ buf)) lines)
  ∧ (¬ is_raw_point buf →
     ∃ lines,
       ASN1toPEM (JBuf buf) = Return (pem_block "CERTIFICATE" lines)
       ∧ wrapped 64 (toString_base64 buf) lines)
  ∧ length spki_prefix = 26%nat
  ∧ Buffer_from_hex "3059301306072a8648ce3d020106082a8648ce3d030107034200"
    = spki_prefix.
Proof.
  pose proof (ASN1toPEM_lines buf) as Hpem. cbv zeta in Hpem.
  pose proof (raw_point_test buf) as Hraw.
  destruct (_ && _).
  - split; [|split; [|done]].
    + intros _. eexists. split; [exact Hpem|apply lines_wrapped].
    + intros Hnot. destruct Hnot. by apply Hraw.
  - split; [|split; [|done]].
    + intros Hpoint. apply Hraw in Hpoint. discriminate.
    + intros _. eexists. split; [exact Hpem|apply lines_wrapped].
Qed.

Lemma pem_encoding_witness :
  (∃ lines,
     ASN1toPEM (JBuf Reference.point) = Return (pem_block "PUBLIC KEY" lines)
     ∧ wrapped 64 (toString_base64 (spki_prefix ++ Reference.point)) lines)
  ∧ (∃ lines,
       ASN1toPEM (JBuf Reference.cert) = Return (pem_block "CERTIFICATE" lines)
       ∧ wrapped 64 (toString_base64 Reference.cert) lines).
Proof.
  split.
  - apply (proj1 (pem_encoding Reference.point)). by split.
  - apply (proj1 (proj2 (pem_encoding Reference.cert))).
    intros [Hlen _]. discriminate Hlen.
Defined.

(** ** Base64 *)

Ltac Zify.zify_post_hook ::= Z.to_euclidean_division_equations.

Lemma below_64 (P : N → bool) :
  forallb (λ k, P (N.of_nat k)) (seq 0 64) = true →
  ∀ n, (n < 64)%N → P n = true.
Proof.
  intros Hall n Hn. rewrite forallb_forall in Hall.
  rewrite <- (N2Nat.id n). apply Hall, in_seq. lia.
Qed.

Lemma b64_index_char (n : N) : (n < 64)%N → b64_index (b64_char n) = Some n.
Proof.
  intros Hn.
  apply (below_64 (λ n, bool_decide (b64_index (b64_char n) = Some n))) in Hn;
    [by apply bool_decide_eq_true in Hn | by vm_compute].
Qed.

Lemma b64_char_not_pad (n : N) : (n < 64)%N → Ascii.eqb (b64_char n) "=" = false.
Proof.
  intros Hn.
  apply (below_64 (λ n, negb (Ascii.eqb (b64_char n) "="))) in Hn;
    [by apply negb_true_iff in Hn | by vm_compute].
Qed.

Lemma b64_char_body (n : N) : (n < 64)%N → body_char (b64_char n) = true.
Proof. intros Hn. by apply (below_64 (λ n, body_char (b64_char n))) in Hn. Qed.

(** The four sextets of three bytes. *)
Lemma sextets_below (a b c : byte) :
  let a := Byte.to_N a in let b := Byte.to_N b in let c := Byte.to_N c in
  (a / 4 < 64 ∧ a mod 4 * 16 + b / 16 < 64
   ∧ b mod 16 * 4 + c / 64 < 64 ∧ c mod 64 < 64
   ∧ a mod 4 * 16 < 64 ∧ b mod 16 * 4 < 64)%N.
Proof.
  pose proof (Byte.to_N_bounded a). pose proof (Byte.to_N_bounded b).
  pose proof (Byte.to_N_bounded c). cbv zeta. repeat split; lia.
Qed.

Lemma sextets_back (a b c : byte) :
  let a := Byte.to_N a in let b := Byte.to_N b in let c := Byte.to_N c in
  (a / 4 * 4 + (a mod 4 * 16 + b / 16) / 16 = a
   ∧ (a mod 4 * 16 + b / 16) mod 16 * 16 + (b mod 16 * 4 + c / 64) / 4 = b
   ∧ (b mod 16 * 4 + c / 64) mod 4 * 64 + c mod 64 = c
   ∧ a / 4 * 4 + (a mod 4 * 16) / 16 = a
   ∧ (a mod 4 * 16 + b / 16) mod 16 * 16 + (b mod 16 * 4) / 4 = b)%N.
Proof.
  pose proof (Byte.to_N_bounded a). pose proof (Byte.to_N_bounded b).
  pose proof (Byte.to_N_bounded c). cbv zeta. repeat split; lia.
Qed.

(** Induction on a list three elements at a time. *)
Lemma list_ind3 {A} (P : list A → Prop) :
  P [] → (∀ a, P [a]) → (∀ a b, P [a; b]) →
  (∀ a b c l, P l → P (a :: b :: c :: l)) →
  ∀ l, P l.
Proof.
  intros H0 H1 H2 H3 l.
  assert (P l ∧ (∀ a, P (a :: l)) ∧ (∀ a b, P (a :: b :: l))) as [Hl _].
  { induction l as [|x l (IH0 & IH1 & IH2)]; [by auto|].
    split; [apply IH1|]. split; [intros a; apply IH2|].
    intros a b. by apply H3. }
  exact Hl.
Qed.

(** Decoding what [toString_base64] writes gives the bytes back. *)
Lemma base64_round_trip (buf : list byte) :
  base64_decode (toString_base64 buf) = Some buf.
Proof.
  induction buf as [|a|a b|a b c rest IH] using list_ind3.
  - reflexivity.
  - pose proof (sextets_below a a a) as (H0 & _ & _ & _ & H1 & _).
    pose proof (sextets_back a a a) as (_ & _ & _ & Ha & _).
    cbv zeta in *. cbn [toString_base64 base64_decode].
    rewrite !b64_index_char by done. cbn [mbind option_bind].
    by rewrite Ha, Byte.of_to_N.
  - pose proof (sextets_below a b b) as (H0 & H1 & _ & _ & _ & H2).
    pose proof (sextets_back a b b) as (Ha & _ & _ & _ & Hb).
    cbv zeta in *. cbn [toString_base64 base64_decode].
    rewrite !b64_index_char by done. cbn [mbind option_bind].
    rewrite Ha, Byte.of_to_N. cbn [mbind option_bind].
    rewrite b64_char_not_pad by done.
    rewrite Hb, Byte.of_to_N. reflexivity.
  - pose proof (sextets_below a b c) as (H0 & H1 & H2 & H3 & _).
    pose proof (sextets_back a b c) as (Ha & Hb & Hc & _).
    cbv zeta in *. cbn [toString_base64 base64_decode].
    rewrite !b64_index_char by done. cbn [mbind option_bind].
    rewrite Ha, Byte.of_to_N. cbn [mbind option_bind].
    rewrite b64_char_not_pad by done.
    rewrite Hb, Byte.of_to_N. cbn [mbind option_bind].
    rewrite Hc, Byte.of_to_N. cbn [mbind option_bind].
    fold toString_base64. by rewrite IH.
Qed.

(** The base64 text has no line feed and no dash. *)
Lemma base64_body_chars (buf : list byte) :
  all_chars body_char (toString_base64 buf) = true.
Proof.
  induction buf as [|a|a b|a b c rest IH] using list_ind3.
  - reflexivity.
  - pose proof (sextets_below a a a) as (H0 & _ & _ & _ & H1 & _).
    cbv zeta in *. cbn [toString_base64 all_chars].
    by rewrite !b64_char_body by done.
  - pose proof (sextets_below a b b) as (H0 & H1 & _ & _ & _ & H2).
    cbv zeta in *. cbn [toString_base64 all_chars].
    by rewrite !b64_char_body by done.
  - pose proof (sextets_below a b c) as (H0 & H1 & H2 & H3 & _).
    cbv zeta in *. cbn [toString_base64 all_chars].
    rewrite !b64_char_body by done. fold toString_base64. by rewrite IH.
Qed.

(** ** Reading a PEM block back *)

Lemma all_chars_append (P : ascii → bool) (s t : string) :
  all_chars P (s +:+ t) = all_chars P s && all_chars P t.
Proof.
  induction s as [|c s IH]; [done|].
  rewrite append_cons. cbn [all_chars]. by rewrite IH, andb_assoc.
Qed.

Lemma all_chars_concat (P : ascii → bool) (ls : list string) :
  all_chars P (String.concat "" ls) = forallb (all_chars P) ls.
Proof.
  induction ls as [|l ls IH]; [done|].
  rewrite concat_cons, all_chars_append, IH. reflexivity.
Qed.

Lemma body_char_line (s : string) :
  all_chars body_char s = true → all_chars line_char s = true.
Proof.
  induction s as [|c s IH]; [done|]. cbn [all_chars]. unfold body_char at 1.
  rewrite !andb_true_iff. intros [[Hc _] Hs]. auto.
Qed.

(** A line and its line feed in front of a text are the first line. *)
Lemma split_lines_line (l rest : string) :
  all_chars line_char l = true →
  split_lines (l +:+ (LF +:+ rest)) = l :: split_lines rest.
Proof.
  induction l as [|c l IH]; [done|].
  cbn [all_chars]. rewrite andb_true_iff. intros [Hc Hl].
  rewrite append_cons. cbn [split_lines].
  unfold line_char in Hc. apply negb_true_iff in Hc. rewrite Hc.
  by rewrite (IH Hl).
Qed.

Lemma split_lines_body (lines : list string) (rest : string) :
  Forall (λ l, all_chars line_char l = true) lines →
  split_lines (String.concat "" (map (λ l, l +:+ LF) lines) +:+ rest)
  = lines ++ split_lines rest.
Proof.
  induction 1 as [|l lines Hl _ IH]; [done|].
  cbn [map]. rewrite concat_cons, !append_assoc, split_lines_line by done.
  by rewrite IH.
Qed.

(** A line of the body is not a frame line. *)
Lemma body_line_not_frame (l : string) :
  all_chars body_char l = true → is_frame_line l = false.
Proof.
  destruct l as [|c l]; [done|].
  cbn [all_chars]. unfold body_char. rewrite !andb_true_iff.
  intros [[_ Hc] _]. apply negb_true_iff, Ascii.eqb_neq in Hc.
  unfold is_frame_line. cbn [String.prefix].
  destruct (ascii_dec "-" c) as [Heq|]; [congruence|done].
Qed.

Lemma filter_body_lines (lines : list string) :
  Forall (λ l, all_chars body_char l = true) lines →
  List.filter (λ l, negb (is_frame_line l)) lines = lines.
Proof.
  induction 1 as [|l lines Hl _ IH]; [done|].
  cbn [List.filter]. by rewrite (body_line_not_frame l Hl), IH.
Qed.

(** The body of a block is its lines put together. *)
Lemma pem_body_block (label : string) (lines : list string) :
  all_chars line_char label = true →
  Forall (λ l, all_chars body_char l = true) lines →
  pem_body (pem_block label lines) = String.concat "" lines.
Proof.
  intros Hlabel Hlines.
  set (first := "-----BEGIN " +:+ label +:+ "-----").
  set (last := "-----END " +:+ label +:+ "-----").
  assert (pem_block label lines
          = first +:+ (LF +:+ (String.concat "" (map (λ l, l +:+ LF) lines)
                               +:+ (last +:+ (LF +:+ ""))))) as ->.
  { unfold pem_block, first, last. by rewrite !append_assoc, append_nil_r. }
  assert (all_chars line_char first = true ∧ all_chars line_char last = true)
    as [Hfirst Hlast].
  { unfold first, last. rewrite !all_chars_append, Hlabel. by split. }
  unfold pem_body.
  rewrite (split_lines_line first) by done.
  rewrite split_lines_body
    by (eapply Forall_impl; [exact Hlines|]; apply body_char_line).
  rewrite (split_lines_line last) by done.
  cbn [List.filter split_lines].
  change (is_frame_line first) with true. cbn [negb].
  rewrite List.filter_app, filter_body_lines by done.
  cbn [List.filter]. change (is_frame_line last) with true.
  change (is_frame_line "") with false. cbn [negb].
  by rewrite concat_app, append_nil_r.
Qed.

Lemma wrapped_body_lines (der : list byte) (lines : list string) :
  wrapped 64 (toString_base64 der) lines →
  Forall (λ l, all_chars body_char l = true) lines.
Proof.
  intros (Hconcat & _ & _).
  pose proof (base64_body_chars der) as Hbody.
  rewrite <- Hconcat, all_chars_concat, forallb_forall in Hbody.
  apply Forall_forall. intros l Hl. by apply Hbody, list_elem_of_In.
Qed.

(** Whatever lines wrap the base64 text of [der], the block reads back as
    [der]. *)
Lemma pem_decode_block (label : string) (der : list byte) (lines : list string) :
  all_chars line_char label = true →
  wrapped 64 (toString_base64 der) lines →
  pem_decode (pem_block label lines) = Some der.
Proof.
  intros Hlabel Hwrapped. unfold pem_decode.
  rewrite pem_body_block by eauto using wrapped_body_lines.
  destruct Hwrapped as (-> & _). apply base64_round_trip.
Qed.

(** C8: stripping the BEGIN and END lines from the encoder's output and
    base64-decoding the body gives back the DER bytes that were wrapped: the
    26-byte prefix followed by the point on the public-key path, the buffer
    itself on the certificate path. *)
Theorem pem_round_trip (buf : list byte) :
  (is_raw_point buf →
   ∃ pem, ASN1toPEM (JBuf buf) = Return pem
          ∧ pem_decode pem = Some (spki_prefix ++ buf))
  ∧ (¬ is_raw_point buf →
     ∃ pem, ASN1toPEM (JBuf buf) = Return pem ∧ pem_decode pem = Some buf).
Proof.
  pose proof (ASN1toPEM_lines buf) as Hpem. cbv zeta in Hpem.
  pose proof (raw_point_test buf) as Hraw.
  destruct (_ && _).
  - split.
    + intros _. eexists. split; [exact Hpem|].
      apply pem_decode_block; [done|apply lines_wrapped].
    + intros Hnot. destruct Hnot. by apply Hraw.
  - split.
    + intros Hpoint. apply Hraw in Hpoint. discriminate.
    + intros _. eexists. split; [exact Hpem|].
      apply pem_decode_block; [done|apply lines_wrapped].
Qed.

Lemma pem_round_trip_witness :
  (∃ pem, ASN1toPEM (JBuf Reference.point) = Return pem
          ∧ pem_decode pem = Some (spki_prefix ++ Reference.point))
  ∧ (∃ pem, ASN1toPEM (JBuf Reference.cert) = Return pem
            ∧ pem_decode pem = Some Reference.cert).
Proof.
  split.
  - apply (proj1 (pem_round_trip Reference.point)). by split.
  - apply (proj2 (pem_round_trip Reference.cert)).
    intros [Hlen _]. discriminate Hlen.
Defined.

(** ** The verdict *)

Section Verdict.
Context `{Required}.

(** A boolean the orchestrator returns is the answer of the signature
    verifier: nothing else in the pipeline produces one. *)
Lemma verify_returns_verdict (resp : WebAuthnResponse) (b : bool) :
  verifyFidoU2fAttestation resp = Return b →
  ∃ data pem signature, crypto_sha256_verify data pem signature = inr b.
Proof.
  rewrite verify_steps. intros Hb.
  apply bind_returns in Hb as (items & _ & Hb). cbv zeta in Hb.
  apply bind_returns in Hb as (authData & _ & Hb).
  apply bind_returns in Hb as (r & _ & Hb).
  destruct (_ =? 0); [discriminate|].
  rewrite attest_steps in Hb.
  apply bind_returns in Hb as (clientData & _ & Hb).
  apply bind_returns in Hb as (publicKey & _ & Hb).
  unfold verify_statement in Hb.
  apply bind_returns in Hb as (attStmt & _ & Hb).
  apply bind_returns in Hb as (x5c & _ & Hb).
  apply bind_returns in Hb as (leaf & _ & Hb).
  apply bind_returns in Hb as (pem & _ & Hb).
  apply bind_returns in Hb as (signature & _ & Hb).
  unfold verifySignature in Hb.
  destruct (crypto_sha256_verify _ pem signature) as [msg|b'] eqn:Hverdict;
    [discriminate|].
  injection Hb as ->. eauto.
Qed.
End Verdict.

(** * Further properties *)

(** ** The parser: what a returned record always satisfies *)

Lemma byte_val_inj (a b : byte) : byte_val a = byte_val b → a = b.
Proof.
  unfold byte_val. intros Hab. apply N2Z.inj in Hab.
  pose proof (Byte.of_to_N a) as Ha. rewrite Hab, Byte.of_to_N in Ha.
  by injection Ha.
Qed.

Lemma be_uint_2_inj (l l' : list byte) :
  length l = 2%nat → length l' = 2%nat → be_uint l = be_uint l' → l = l'.
Proof.
  destruct l as [|a [|b [|]]]; try discriminate.
  destruct l' as [|a' [|b' [|]]]; try discriminate.
  intros _ _. rewrite !be_uint_2.
  pose proof (byte_val_range a). pose proof (byte_val_range b).
  pose proof (byte_val_range a'). pose proof (byte_val_range b').
  intros Heq.
  assert (byte_val a = byte_val a') as Ha by lia.
  assert (byte_val b = byte_val b') as Hb by lia.
  by rewrite (byte_val_inj _ _ Ha), (byte_val_inj _ _ Hb).
Qed.

Lemma be_uint_2_bounds (l : list byte) : length l = 2%nat → 0 ≤ be_uint l < 2 ^ 16.
Proof.
  destruct l as [|a [|b [|]]]; try discriminate. intros _.
  rewrite be_uint_2. pose proof (byte_val_range a). pose proof (byte_val_range b).
  lia.
Qed.

Lemma be_uint_4_bounds (l : list byte) : length l = 4%nat → 0 ≤ be_uint l < 2 ^ 32.
Proof.
  destruct l as [|a [|b [|c [|d [|]]]]]; try discriminate. intros _.
  rewrite be_uint_4.
  pose proof (byte_val_range a). pose proof (byte_val_range b).
  pose proof (byte_val_range c). pose proof (byte_val_range d). lia.
Qed.

Lemma parse_returned (arg : jsval) (r : AuthData) :
  parseMakeCredAuthData arg = Return r →
  ∃ buf, arg = JBuf buf ∧ (55 ≤ length buf)%nat
    ∧ r = {| rpIdHash := slice buf 0 32;
             flagsBuf := slice buf 32 33;
             flags := buf !! 32%nat;
             counter := be_uint (slice buf 33 37);
             counterBuf := slice buf 33 37;
             aaguid := slice buf 37 53;
             credID := slice buf 55 (55 + Z.to_nat (declared_credIDLen buf));
             COSEPublicKey := drop (55 + Z.to_nat (declared_credIDLen buf)) buf |}.
Proof.
  intros Hr.
  destruct (parse_returns_flags _ _ Hr) as (buf & flag & -> & Hlen & _).
  exists buf. split; [done|]. split; [done|].
  rewrite parse_long in Hr by done. by injection Hr.
Qed.

(** X1: the parser returns a record only for a buffer of at least 55 bytes,
    and every record it returns has a 32-byte rpIdHash, a one-byte flagsBuf
    whose byte is [flags], a 4-byte counterBuf whose big-endian value is
    [counter], below 2^32, a 16-byte aaguid, and a credentialId of at most
    65535 bytes that together with the COSE key is all that follows the
    55-byte fixed part. *)
Theorem parse_record_invariants (arg : jsval) (r : AuthData) :
  parseMakeCredAuthData arg = Return r →
  ∃ buf,
    arg = JBuf buf
    ∧ (55 ≤ length buf)%nat
    ∧ length (rpIdHash r) = 32%nat
    ∧ length (flagsBuf r) = 1%nat
    ∧ flags r = flagsBuf r !! 0%nat
    ∧ is_Some (flags r)
    ∧ length (counterBuf r) = 4%nat
    ∧ counter r = be_uint (counterBuf r)
    ∧ 0 ≤ counter r < 2 ^ 32
    ∧ length (aaguid r) = 16%nat
    ∧ Z.of_nat (length (credID r)) < 2 ^ 16
    ∧ (55 + length (credID r) + length (COSEPublicKey r) = length buf)%nat.
Proof.
  intros Hr. destruct (parse_returned _ _ Hr) as (buf & -> & Hlen & ->).
  exists buf. cbn [rpIdHash flagsBuf flags counter counterBuf aaguid credID
    COSEPublicKey].
  pose proof (be_uint_2_bounds (slice buf 53 55)) as Hdecl.
  fold (declared_credIDLen buf) in Hdecl.
  rewrite !slice_length, length_drop.
  repeat split; try lia.
  - by rewrite (slice_lookup buf 32 33 0) by lia.
  - apply lookup_lt_is_Some. lia.
  - apply be_uint_4_bounds. rewrite slice_length. lia.
  - apply be_uint_4_bounds. rewrite slice_length. lia.
  - specialize (Hdecl ltac:(rewrite slice_length; lia)). lia.
Qed.

Lemma parse_record_invariants_witness :
  ∃ r, parseMakeCredAuthData (JBuf Reference.auth_data) = Return r
       ∧ length (rpIdHash r) = 32%nat
       ∧ 0 ≤ counter r < 2 ^ 32
       ∧ (55 + length (credID r) + length (COSEPublicKey r)
          = length Reference.auth_data)%nat.
Proof.
  destruct (parseMakeCredAuthData (JBuf Reference.auth_data)) as [r|e] eqn:Hr;
    [|exfalso; vm_compute in Hr; discriminate].
  destruct (parse_record_invariants (JBuf Reference.auth_data) r Hr)
    as (buf & [= <-] & _ & Hrp & _ & _ & _ & _ & _ & Hc & _ & _ & Hsum).
  exists r. done.
Defined.

(** X2: on buffers whose credentialId is complete (the declared length
    does not exceed the bytes after offset 55) the parser is injective: two
    such buffers that parse to the same record are the same buffer. *)
Theorem parse_injective (buf buf' : list byte) (r : AuthData) :
  parseMakeCredAuthData (JBuf buf) = Return r →
  parseMakeCredAuthData (JBuf buf') = Return r →
  (Z.to_nat (declared_credIDLen buf) ≤ length buf - 55)%nat →
  (Z.to_nat (declared_credIDLen buf') ≤ length buf' - 55)%nat →
  buf = buf'.
Proof.
  intros Hr Hr' Hd Hd'.
  destruct (parse_returned _ _ Hr) as (b & [= <-] & Hlen & Hrec).
  destruct (parse_returned _ _ Hr') as (b' & [= <-] & Hlen' & Hrec').
  rewrite Hrec in Hrec'.
  pose proof (f_equal rpIdHash Hrec') as Hrp.
  pose proof (f_equal flagsBuf Hrec') as Hfb.
  pose proof (f_equal counterBuf Hrec') as Hcb.
  pose proof (f_equal aaguid Hrec') as Haa.
  pose proof (f_equal credID Hrec') as Hcid.
  pose proof (f_equal COSEPublicKey Hrec') as Hkey.
  cbn [rpIdHash flagsBuf counterBuf aaguid credID COSEPublicKey] in *.
  clear Hrec Hrec'.
  assert (length (slice buf 55 (55 + Z.to_nat (declared_credIDLen buf)))
          = length (slice buf' 55 (55 + Z.to_nat (declared_credIDLen buf'))))
    as Hcidlen by by rewrite Hcid.
  rewrite !slice_length in Hcidlen.
  assert (slice buf 53 55 = slice buf' 53 55) as Hlf.
  { apply be_uint_2_inj; try (rewrite slice_length; lia).
    pose proof (be_uint_2_bounds (slice buf 53 55)
                  ltac:(rewrite slice_length; lia)).
    pose proof (be_uint_2_bounds (slice buf' 53 55)
                  ltac:(rewrite slice_length; lia)).
    unfold declared_credIDLen in *. lia. }
  rewrite <- (parse_consumes_all buf (Z.to_nat (declared_credIDLen buf))).
  rewrite <- (parse_consumes_all buf' (Z.to_nat (declared_credIDLen buf'))).
  by rewrite Hrp, Hfb, Hcb, Haa, Hlf, Hcid, Hkey.
Qed.

Lemma parse_injective_witness :
  Reference.auth_data_with x41 Reference.cose_key = Reference.auth_data.
Proof.
  destruct (parseMakeCredAuthData (JBuf Reference.auth_data)) as [r|e] eqn:Hr;
    [|exfalso; vm_compute in Hr; discriminate].
  apply (parse_injective _ _ r); [exact Hr | exact Hr | |]; vm_compute; lia.
Defined.

(** ** The COSE key converter: distinct coordinates, distinct points *)

Section ConverterMore.
Context `{Required}.

(** X3: the converted point starts with 0x04, and two keys whose x
    coordinates have the same length (32 bytes for P-256) and that are
    converted to the same point have the same x and the same y. *)
Theorem cose_point_injective (key key' x y x' y' : list byte) :
  has_coordinates key x y →
  has_coordinates key' x' y' →
  length x = length x' →
  (∃ pt, COSEECDHAtoPKCS key = Return pt ∧ pt !! 0%nat = Some x04)
  ∧ (COSEECDHAtoPKCS key = COSEECDHAtoPKCS key' → x = x' ∧ y = y').
Proof.
  intros Hxy Hxy' Hlen.
  rewrite (cose_returns _ _ _ Hxy), (cose_returns _ _ _ Hxy').
  split; [by eexists|].
  intros [= Heq]. by apply app_inj_1.
Qed.
End ConverterMore.

Lemma cose_point_injective_witness :
  @COSEECDHAtoPKCS Reference.modules Reference.cose_key
  = @COSEECDHAtoPKCS Reference.modules Reference.bare_key
  ∧ Reference.X = Reference.X ∧ Reference.Y = Reference.Y.
Proof.
  assert (@COSEECDHAtoPKCS Reference.modules Reference.cose_key
          = @COSEECDHAtoPKCS Reference.modules Reference.bare_key) as Heq
    by (vm_compute; reflexivity).
  split; [exact Heq|].
  apply (proj2 (@cose_point_injective Reference.modules
                  Reference.cose_key Reference.bare_key
                  Reference.X Reference.Y Reference.X Reference.Y
                  ltac:(eexists _, _; repeat split; vm_compute; reflexivity)
                  ltac:(eexists _, _; repeat split; vm_compute; reflexivity)
                  eq_refl)).
  exact Heq.
Defined.

(** ** The DER/PEM encoder: distinct buffers, distinct texts *)

Lemma Return_inj {A} (a b : A) : Return a = Return b → a = b.
Proof. by intros [=]. Qed.

Lemma pem_block_label (lines lines' : list string) :
  pem_block "PUBLIC KEY" lines ≠ pem_block "CERTIFICATE" lines'.
Proof.
  intros Heq. apply (f_equal (String.get 11)) in Heq.
  change (Some "P"%char = Some "C"%char) in Heq. discriminate.
Qed.

(** X4: the encoder is injective on buffers: two different buffers never
    give the same PEM text. *)
Theorem ASN1toPEM_injective (buf buf' : list byte) :
  buf ≠ buf' → ASN1toPEM (JBuf buf) ≠ ASN1toPEM (JBuf buf').
Proof.
  intros Hne Heq. apply Hne. clear Hne.
  rewrite !ASN1toPEM_lines in Heq. cbv zeta in Heq.
  apply Return_inj in Heq.
  pose proof (f_equal pem_decode Heq) as Hder.
  set (raw := Nat.eqb (length buf) 65 && _) in *.
  set (raw' := Nat.eqb (length buf') 65 && _) in *.
  destruct raw, raw'; cbv beta iota in Heq, Hder.
  - rewrite (pem_decode_block "PUBLIC KEY" (spki_prefix ++ buf)),
      (pem_decode_block "PUBLIC KEY" (spki_prefix ++ buf')) in Hder
      by (done || apply lines_wrapped).
    assert (spki_prefix ++ buf = spki_prefix ++ buf') as Happ by congruence.
    by apply app_inv_head in Happ.
  - by apply pem_block_label in Heq.
  - symmetry in Heq. by apply pem_block_label in Heq.
  - rewrite (pem_decode_block "CERTIFICATE" buf),
      (pem_decode_block "CERTIFICATE" buf') in Hder
      by (done || apply lines_wrapped).
    by injection Hder.
Qed.

Lemma ASN1toPEM_injective_witness :
  ASN1toPEM (JBuf Reference.cert) ≠ ASN1toPEM (JBuf Reference.point).
Proof. apply ASN1toPEM_injective. discriminate. Defined.

(** ** The DER/PEM encoder: the text of a public key *)

Lemma base64_length (buf : list byte) :
  String.length (toString_base64 buf) = (4 * ((length buf + 2) / 3))%nat.
Proof.
  induction buf as [|a|a b|a b c rest IH] using list_ind3; try reflexivity.
  cbn [toString_base64 String.length length]. fold toString_base64.
  rewrite IH.
  replace (S (S (S (length rest))) + 2)%nat with (length rest + 2 + 1 * 3)%nat
    by lia.
  rewrite Nat.div_add by done. lia.
Qed.

Lemma prefix_of_append (h t : string) (m : nat) :
  (String.length h ≤ m)%nat →
  String.prefix h (String.substring 0 m (h +:+ t)) = true.
Proof.
  revert m. induction h as [|c h IH]; intros m Hm.
  - by destruct (String.substring 0 m ("" +:+ t)).
  - destruct m as [|m]; [cbn in Hm; lia|].
    rewrite append_cons, substring_0_S_cons. cbn [String.prefix].
    destruct (ascii_dec c c) as [_|Hc]; [|done].
    apply IH. cbn in Hm. lia.
Qed.

(** X5: the PEM text of every raw point has the same shape: a first body
    line of 64 characters that starts with the 36 characters
    MFkwEwYHKoZIzj0CAQYIKoZIzj0DAQcDQgAE, and a second and last one of 60
    characters. *)
Theorem public_key_pem_shape (buf : list byte) :
  is_raw_point buf →
  ∃ l1 l2,
    ASN1toPEM (JBuf buf) = Return (pem_block "PUBLIC KEY" [l1; l2])
    ∧ String.length l1 = 64%nat
    ∧ String.length l2 = 60%nat
    ∧ String.prefix pk_header l1 = true.
Proof.
  intros Hraw. pose proof Hraw as [Hlen Hfirst].
  apply raw_point_test in Hraw.
  pose proof (ASN1toPEM_lines buf) as Hpem. cbv zeta in Hpem.
  rewrite Hraw in Hpem.
  assert (String.length (toString_base64 (spki_prefix ++ buf)) = 124%nat)
    as Hb64 by (rewrite base64_length, length_app, Hlen; reflexivity).
  rewrite Hb64 in Hpem.
  change (seq 0 (ceil_div 124 64)) with [0; 1]%nat in Hpem.
  cbn [map] in Hpem.
  eexists _, _. split; [exact Hpem|].
  rewrite !substring_length, Hb64.
  split; [reflexivity|]. split; [reflexivity|].
  destruct buf as [|b tail]; [discriminate|]. injection Hfirst as ->.
  change (toString_base64 (spki_prefix ++ x04 :: tail))
    with (pk_header +:+ toString_base64 tail).
  apply prefix_of_append. cbn. lia.
Qed.

Lemma public_key_pem_shape_witness :
  ∃ l1 l2,
    ASN1toPEM (JBuf Reference.point) = Return (pem_block "PUBLIC KEY" [l1; l2])
    ∧ String.length l1 = 64%nat
    ∧ String.length l2 = 60%nat
    ∧ String.prefix pk_header l1 = true.
Proof. apply public_key_pem_shape. by split. Defined.

(** ** The orchestrator: when a boolean is returned *)

Section Returns.
Context `{Required}.

Lemma call_returned {A} (lib : extern) (r : string + A) (a : A) :
  call lib r = Return a → r = inr a.
Proof. destruct r; [discriminate|]. by intros [= ->]. Qed.

Lemma verify_with_base (resp : WebAuthnResponse) (ctap : jsval)
    (data : list byte) :
  signature_base_of resp ctap data →
  verifyFidoU2fAttestation resp = verify_statement ctap data.
Proof.
  intros (items & buf & r & clientData & x & y
          & Hitems & -> & HauthData & Hr & Hup & Hcd & Hxy & ->).
  rewrite verify_steps, Hitems, bind_Return. cbv zeta.
  rewrite HauthData, bind_Return, Hr, bind_Return.
  apply Z.eqb_neq in Hup. rewrite Hup.
  rewrite attest_steps, Hcd. cbn [call].
  by rewrite bind_Return, (cose_returns _ x y Hxy), bind_Return.
Qed.





(** X7: when steps 1 to 6 succeed and the first element of [attStmt.x5c] is
    not a buffer (the array is empty, or [x5c] is not an array of buffers),
    the orchestrator throws the encoder's error 'ASN1toPEM: pkBuffer must be
    Buffer.' and returns no boolean. *)
Theorem leaf_not_buffer_throws (resp : WebAuthnResponse) (ctap : jsval)
    (data : list byte) (attStmt x5c leaf : jsval) :
  signature_base_of resp ctap data →
  get_prop ctap "attStmt" = Return attStmt →
  get_prop attStmt "x5c" = Return x5c →
  get_index0 x5c = Return leaf →
  (∀ cert, leaf ≠ JBuf cert) →
  verifyFidoU2fAttestation resp = Throw not_a_buffer.
Proof.
  intros Hbase HattStmt Hx5c Hleaf Hnot.
  rewrite (verify_with_base _ _ _ Hbase). unfold verify_statement.
  rewrite HattStmt, bind_Return, Hx5c, bind_Return, Hleaf, bind_Return.
  destruct leaf as [| | | | |cert| | |]; try done. by destruct (Hnot cert).
Qed.
End Returns.

Ltac run_reference := vm_compute; first [reflexivity | discriminate | lia].

Lemma reference_base (sig x5c : list byte) :
  let att :=
    [xa3] ++ Reference.cbor_text "fmt" ++ Reference.cbor_text "fido-u2f"
    ++ Reference.cbor_text "attStmt"
    ++ ([xa2] ++ Reference.cbor_text "sig" ++ Reference.cbor_bytes sig
        ++ Reference.cbor_text "x5c" ++ x5c)
    ++ Reference.cbor_text "authData"
    ++ Reference.cbor_bytes Reference.auth_data in
  ∀ items,
    Reference.decodeAllSync att = inr items →
    Reference.toBuffer (Reference.base64url_encode att) = inr att →
    get_prop (default JUndefined (items !! 0%nat)) "authData"
    = Return (JBuf Reference.auth_data) →
    @signature_base_of Reference.modules (Reference.response_of att)
      (default JUndefined (items !! 0%nat)) Reference.signature_base.
Proof.
  intros att items Hitems Hbuf HauthData.
  eexists items, Reference.auth_data, _, Reference.client_data,
    Reference.X, Reference.Y.
  split.
  { unfold decode_attestation. cbn [response attestationObject
      Reference.response_of base64url_toBuffer Reference.modules].
    rewrite Hbuf. cbn [call]. rewrite bind_Return.
    cbn [cbor_decodeAllSync Reference.modules]. by rewrite Hitems. }
  split; [done|]. split; [exact HauthData|].
  split; [vm_compute; reflexivity|].
  split; [run_reference|]. split; [run_reference|].
  split; [|reflexivity].
  eexists _, _. repeat split; run_reference.
Qed.


Lemma leaf_not_buffer_throws_witness :
  @verifyFidoU2fAttestation Reference.modules
    (Reference.response_of (Reference.attestation_x5c [x80]))
  = Throw not_a_buffer.
Proof.
  eapply (@leaf_not_buffer_throws Reference.modules _
            (Reference.first_of (Reference.attestation_x5c [x80]))
            Reference.signature_base).
  - apply (reference_base (Reference.toy_digest Reference.signature_base)
             [x80]
             (Reference.items_of (Reference.attestation_x5c [x80])));
      run_reference.
  - run_reference.
  - run_reference.
  - run_reference.
  - intros cert. discriminate.
Defined.

(** ** The orchestrator: what it does not read *)

Section Unread.
Context `{Required}.

(** Of the decoded attestation object the orchestrator reads the two
    properties [authData] and [attStmt], and of [attStmt] the verifier's
    inputs. *)
Lemma verify_same_statement (resp resp' : WebAuthnResponse)
    (items items' : list jsval) :
  let ctap := default JUndefined (items !! 0%nat) in
  let ctap' := default JUndefined (items' !! 0%nat) in
  decode_attestation (attestationObject (response resp)) = Return items →
  decode_attestation (attestationObject (response resp')) = Return items' →
  get_prop ctap "authData" = get_prop ctap' "authData" →
  (∀ data, verify_statement ctap data = verify_statement ctap' data) →
  clientDataJSON (response resp) = clientDataJSON (response resp') →
  verifyFidoU2fAttestation resp = verifyFidoU2fAttestation resp'.
Proof.
  intros ctap ctap' Hitems Hitems' HauthData Hstatement Hcd.
  rewrite !verify_steps, Hitems, Hitems', !bind_Return. cbv zeta.
  fold ctap ctap'. rewrite HauthData, Hcd.
  destruct (get_prop ctap' "authData") as [authData|e]; [|done].
  rewrite !bind_Return.
  destruct (parseMakeCredAuthData authData) as [r|e]; [|done].
  rewrite !bind_Return. destruct (_ =? 0); [done|].
  rewrite !attest_steps.
  destruct (call base64url _) as [clientData|e]; [|done].
  rewrite !bind_Return.
  destruct (COSEECDHAtoPKCS _) as [publicKey|e]; [|done].
  rewrite !bind_Return. apply Hstatement.
Qed.

Lemma verify_statement_obj (fields stmt : gmap string jsval) (data : list byte) :
  fields !! "attStmt" = Some (JObj stmt) →
  verify_statement (JObj fields) data =
    leaf ← get_index0 (default JUndefined (stmt !! "x5c"));
    pem ← ASN1toPEM leaf;
    verifySignature (default JUndefined (stmt !! "sig")) data pem.
Proof.
  intros HattStmt. unfold verify_statement. cbn [get_prop].
  rewrite HattStmt. cbn [default from_option id].
  rewrite !bind_Return. cbn [get_prop]. rewrite !bind_Return.
  destruct (get_index0 _) as [leaf|e]; [|done]. rewrite !bind_Return.
  destruct (ASN1toPEM leaf) as [pem|e]; [|done]. by rewrite !bind_Return.
Qed.

(** X8: no property of the attestation object other than [authData] and
    [attStmt] is read, [fmt] included: adding or changing any other property
    leaves the result as it is. *)
Theorem other_properties_unread (resp resp' : WebAuthnResponse)
    (fields : gmap string jsval) (rest rest' : list jsval)
    (name : string) (v : jsval) :
  name ≠ "authData" → name ≠ "attStmt" →
  decode_attestation (attestationObject (response resp))
  = Return (JObj fields :: rest) →
  decode_attestation (attestationObject (response resp'))
  = Return (JObj (<[name:=v]> fields) :: rest') →
  clientDataJSON (response resp) = clientDataJSON (response resp') →
  verifyFidoU2fAttestation resp = verifyFidoU2fAttestation resp'.
Proof.
  intros HauthData HattStmt Hitems Hitems' Hcd.
  apply (verify_same_statement _ _ _ _ Hitems Hitems'); [| |done].
  - cbn. by rewrite lookup_insert_ne.
  - intros data. apply verify_statement_attStmt.
    cbn. by rewrite lookup_insert_ne.
Qed.

(** X9: of the certificates in [attStmt.x5c] only the first is used:
    dropping the rest of the chain leaves the result as it is. *)
Theorem certificate_chain_unread (resp resp' : WebAuthnResponse)
    (fields stmt : gmap string jsval) (rest rest' : list jsval)
    (leaf : jsval) (chain : list jsval) :
  fields !! "attStmt" = Some (JObj stmt) →
  stmt !! "x5c" = Some (JArr (leaf :: chain)) →
  decode_attestation (attestationObject (response resp))
  = Return (JObj fields :: rest) →
  decode_attestation (attestationObject (response resp'))
  = Return (JObj (<["attStmt" := JObj (<["x5c" := JArr [leaf]]> stmt)]> fields)
            :: rest') →
  clientDataJSON (response resp) = clientDataJSON (response resp') →
  verifyFidoU2fAttestation resp = verifyFidoU2fAttestation resp'.
Proof.
  intros HattStmt Hx5c Hitems Hitems' Hcd.
  apply (verify_same_statement _ _ _ _ Hitems Hitems'); [| |done].
  - cbn. by rewrite lookup_insert_ne.
  - intros data.
    change (default JUndefined ((JObj fields :: rest) !! 0%nat))
      with (JObj fields).
    change (default JUndefined
              ((JObj (<["attStmt" := JObj (<["x5c" := JArr [leaf]]> stmt)]> fields)
                :: rest') !! 0%nat))
      with (JObj (<["attStmt" := JObj (<["x5c" := JArr [leaf]]> stmt)]> fields)).
    rewrite (verify_statement_obj fields stmt) by done.
    rewrite (verify_statement_obj _ (<["x5c" := JArr [leaf]]> stmt))
      by apply lookup_insert_eq.
    by rewrite Hx5c, lookup_insert_eq, lookup_insert_ne.
Qed.
End Unread.

Lemma other_properties_unread_witness :
  @verifyFidoU2fAttestation Reference.modules
    (Reference.response_of Reference.attestation)
  = @verifyFidoU2fAttestation Reference.modules
      (Reference.response_of (Reference.attestation_fmt "packed")).
Proof.
  apply (@other_properties_unread Reference.modules _ _
           (Reference.fields_of (Reference.first_of Reference.attestation))
           [] [] "fmt" (JStr "packed")); run_reference.
Defined.

Lemma certificate_chain_unread_witness :
  @verifyFidoU2fAttestation Reference.modules
    (Reference.response_of
       (Reference.attestation_x5c
          ([x82] ++ Reference.cbor_bytes Reference.cert
           ++ Reference.cbor_bytes [x30; x00])))
  = @verifyFidoU2fAttestation Reference.modules
      (Reference.response_of Reference.attestation).
Proof.
  pose (fields :=
    Reference.fields_of
      (Reference.first_of
         (Reference.attestation_x5c
            ([x82] ++ Reference.cbor_bytes Reference.cert
             ++ Reference.cbor_bytes [x30; x00])))).
  apply (@certificate_chain_unread Reference.modules _ _ fields
           (Reference.fields_of (default JUndefined (fields !! "attStmt")))
           [] [] (JBuf Reference.cert) [JBuf [x30; x00]]); run_reference.
Defined.

(** ** The orchestrator: counter and aaguid *)

Lemma slice_of_take (buf : list byte) (n a b : nat) :
  (b ≤ n)%nat → slice buf a b = slice (take n buf) a b.
Proof.
  intros Hb. unfold slice.
  rewrite skipn_firstn_comm, take_take. f_equal. lia.
Qed.

Lemma slice_of_drop (buf : list byte) (n a b : nat) :
  slice buf (n + a) (n + b) = slice (drop n buf) a b.
Proof. unfold slice. rewrite drop_drop. f_equal. lia. Qed.

(** What the orchestrator uses of a parsed buffer is determined by its first
    33 bytes and by its bytes from offset 53 on. *)
Lemma parse_outside_counter (buf buf' : list byte) :
  take 33 buf = take 33 buf' → drop 53 buf = drop 53 buf' →
  match parseMakeCredAuthData (JBuf buf), parseMakeCredAuthData (JBuf buf') with
  | Return r, Return r' =>
      flags r = flags r' ∧ rpIdHash r = rpIdHash r' ∧ credID r = credID r'
      ∧ COSEPublicKey r = COSEPublicKey r'
  | Throw e, Throw e' => e = e'
  | _, _ => False
  end.
Proof.
  intros Htake Hdrop.
  assert (length buf - 53 = length buf' - 53)%nat as Hlen
    by by rewrite <- !length_drop, Hdrop.
  destruct (decide (length buf < 55)%nat) as [Hshort|Hlong].
  - rewrite !parse_short by lia. done.
  - rewrite !parse_long by lia.
    cbn [flags rpIdHash credID COSEPublicKey]. unfold declared_credIDLen.
    rewrite (slice_of_take buf 33 0 32), (slice_of_take buf' 33 0 32) by lia.
    rewrite <- (lookup_take_lt buf 33 32), <- (lookup_take_lt buf' 33 32) by lia.
    rewrite (slice_of_drop buf 53 0 2 : slice buf 53 55 = _).
    rewrite (slice_of_drop buf' 53 0 2 : slice buf' 53 55 = _).
    rewrite Hdrop.
    set (n := Z.to_nat (be_uint (slice (drop 53 buf') 0 2))).
    replace (55 + n)%nat with (53 + (2 + n))%nat by lia.
    rewrite (slice_of_drop buf 53 2 (2 + n) : slice buf 55 _ = _).
    rewrite (slice_of_drop buf' 53 2 (2 + n) : slice buf' 55 _ = _).
    rewrite <- !drop_drop. by rewrite Htake, Hdrop.
Qed.

Section CounterUnread.
Context `{Required}.

(** X10: the signature counter and the aaguid (bytes 33 to 52 of the
    authenticator data) are never used: two inputs whose authenticator data
    agree on the first 33 bytes and from offset 53 on, with the same
    attestation statement and client data, give the same result. *)
Theorem counter_aaguid_unread (resp resp' : WebAuthnResponse)
    (items items' : list jsval) (buf buf' : list byte) :
  let ctap := default JUndefined (items !! 0%nat) in
  let ctap' := default JUndefined (items' !! 0%nat) in
  decode_attestation (attestationObject (response resp)) = Return items →
  decode_attestation (attestationObject (response resp')) = Return items' →
  get_prop ctap "authData" = Return (JBuf buf) →
  get_prop ctap' "authData" = Return (JBuf buf') →
  get_prop ctap "attStmt" = get_prop ctap' "attStmt" →
  clientDataJSON (response resp) = clientDataJSON (response resp') →
  take 33 buf = take 33 buf' →
  drop 53 buf = drop 53 buf' →
  verifyFidoU2fAttestation resp = verifyFidoU2fAttestation resp'.
Proof.
  intros ctap ctap' Hitems Hitems' HauthData HauthData' HattStmt Hcd
    Htake Hdrop.
  rewrite !verify_steps, Hitems, Hitems', !bind_Return. cbv zeta.
  fold ctap ctap'. rewrite HauthData, HauthData', !bind_Return, Hcd.
  pose proof (parse_outside_counter buf buf' Htake Hdrop) as Hparse.
  destruct (parseMakeCredAuthData (JBuf buf)) as [r|e],
    (parseMakeCredAuthData (JBuf buf')) as [r'|e']; try done.
  - destruct Hparse as (Hflags & Hrp & Hcid & Hkey). rewrite !bind_Return.
    rewrite Hflags, Hrp, Hcid, Hkey.
    destruct (_ =? 0); [done|]. by apply attest_attStmt.
  - by rewrite Hparse.
Qed.

(** ** The orchestrator: failures after decoding *)

(** X11: when the declared credentialId length reaches or exceeds the bytes
    that follow offset 55, the parser leaves an empty COSE key; with a
    decoder that finds no item in an empty input, and the user-presence bit
    and the client data in order, the orchestrator then throws a TypeError
    at the key conversion. *)
Theorem empty_key_throws (resp : WebAuthnResponse) (items : list jsval)
    (buf : list byte) (flag : byte) (clientData : list byte) :
  decode_attestation (attestationObject (response resp)) = Return items →
  get_prop (default JUndefined (items !! 0%nat)) "authData" = Return (JBuf buf) →
  (55 ≤ length buf)%nat →
  (length buf - 55 ≤ Z.to_nat (declared_credIDLen buf))%nat →
  buf !! 32%nat = Some flag →
  Z.testbit (byte_val flag) 0 = true →
  base64url_toBuffer (clientDataJSON (response resp)) = inr clientData →
  cbor_decodeAllSync [] = inr [] →
  verifyFidoU2fAttestation resp = Throw TypeError.
Proof.
  intros Hitems HauthData Hlen Hdecl Hflag Hbit Hcd Hempty.
  rewrite verify_steps, Hitems, bind_Return. cbv zeta.
  rewrite HauthData, bind_Return, parse_long, bind_Return by done.
  cbn [flags rpIdHash credID COSEPublicKey].
  rewrite Hflag, flags_and_present, Hbit. cbn [negb].
  rewrite attest_steps, Hcd. cbn [call]. rewrite bind_Return.
  rewrite drop_ge by lia.
  unfold COSEECDHAtoPKCS. by rewrite Hempty.
Qed.

(** X13: when the decoded attestation object has no buffer as [authData]
    (the first item is not an object, or the property is missing or of
    another type) the orchestrator throws a TypeError, and when the buffer
    has fewer than 55 bytes a RangeError, whatever the rest of the input
    is. *)
Theorem malformed_auth_data_throws (resp : WebAuthnResponse)
    (items : list jsval) :
  decode_attestation (attestationObject (response resp)) = Return items →
  ((∀ buf, get_prop (default JUndefined (items !! 0%nat)) "authData"
           ≠ Return (JBuf buf)) →
   verifyFidoU2fAttestation resp = Throw TypeError)
  ∧ (∀ buf,
       get_prop (default JUndefined (items !! 0%nat)) "authData"
       = Return (JBuf buf) →
       (length buf < 55)%nat →
       verifyFidoU2fAttestation resp = Throw RangeError).
Proof.
  intros Hitems. rewrite verify_steps, Hitems, bind_Return. cbv zeta.
  split.
  - intros Hnot.
    destruct (get_prop _ "authData") as [authData|e] eqn:HauthData.
    + destruct authData as [| | | | |buf| | |]; try done. by destruct (Hnot buf).
    + assert (e = TypeError) as ->; [|done].
      destruct (default JUndefined (items !! 0%nat)); cbn in HauthData;
        congruence.
  - intros buf HauthData Hlen.
    by rewrite HauthData, bind_Return, parse_short.
Qed.
End CounterUnread.

Lemma counter_aaguid_unread_witness :
  @verifyFidoU2fAttestation Reference.modules
    (Reference.response_of
       (Reference.attestation_auth Reference.auth_data_other))
  = @verifyFidoU2fAttestation Reference.modules
      (Reference.response_of Reference.attestation).
Proof.
  apply (@counter_aaguid_unread Reference.modules _ _
           (Reference.items_of
              (Reference.attestation_auth Reference.auth_data_other))
           (Reference.items_of Reference.attestation)
           Reference.auth_data_other Reference.auth_data);
    run_reference.
Defined.

Lemma empty_key_throws_witness :
  @verifyFidoU2fAttestation Reference.modules
    (Reference.response_of
       (Reference.attestation_auth Reference.auth_data_overlong))
  = Throw TypeError.
Proof.
  apply (@empty_key_throws Reference.modules _
           (Reference.items_of
              (Reference.attestation_auth Reference.auth_data_overlong))
           Reference.auth_data_overlong x41 Reference.client_data);
    run_reference.
Defined.

Lemma malformed_auth_data_throws_witness :
  @verifyFidoU2fAttestation Reference.modules (Reference.response_of [x05])
  = Throw TypeError
  ∧ @verifyFidoU2fAttestation Reference.modules
      (Reference.response_of (Reference.attestation_auth [x01; x02]))
    = Throw RangeError.
Proof.
  split.
  - apply (proj1 (@malformed_auth_data_throws Reference.modules
                    (Reference.response_of [x05]) [JNum 5]
                    ltac:(run_reference))).
    intros buf. discriminate.
  - apply (proj2 (@malformed_auth_data_throws Reference.modules
                    (Reference.response_of
                       (Reference.attestation_auth [x01; x02]))
                    (Reference.items_of (Reference.attestation_auth [x01; x02]))
                    ltac:(run_reference)) [x01; x02]); run_reference.
Defined.

(** ** The orchestrator: the client data *)

Section ClientData.
Context `{Required}.

(** X14: the client data is hashed, never parsed: two inputs with the same
    attestationObject whose clientDataJSON strings decode to bytes with the
    same digest give the same result. *)
Theorem client_data_only_hashed (resp resp' : WebAuthnResponse)
    (clientData clientData' : list byte) :
  attestationObject (response resp) = attestationObject (response resp') →
  base64url_toBuffer (clientDataJSON (response resp)) = inr clientData →
  base64url_toBuffer (clientDataJSON (response resp')) = inr clientData' →
  hash clientData = hash clientData' →
  verifyFidoU2fAttestation resp = verifyFidoU2fAttestation resp'.
Proof.
  intros Hatt Hcd Hcd' Hhash.
  rewrite !verify_steps, Hatt.
  destruct (decode_attestation _) as [items|e]; [|done].
  rewrite !bind_Return. cbv zeta.
  destruct (get_prop _ "authData") as [authData|e]; [|done].
  rewrite !bind_Return.
  destruct (parseMakeCredAuthData authData) as [r|e]; [|done].
  rewrite !bind_Return. destruct (_ =? 0); [done|].
  rewrite !attest_steps, Hcd, Hcd'. cbn [call].
  by rewrite !bind_Return, Hhash.
Qed.
End ClientData.

Lemma client_data_only_hashed_witness :
  @verifyFidoU2fAttestation Reference.modules
    {| response :=
         {| attestationObject :=
              Reference.base64url_encode Reference.attestation;
            clientDataJSON := "e30" |} |}
  = @verifyFidoU2fAttestation Reference.modules
      {| response :=
           {| attestationObject :=
                Reference.base64url_encode Reference.attestation;
              clientDataJSON := "e30=" |} |}.
Proof.
  apply (@client_data_only_hashed Reference.modules _ _
           Reference.client_data Reference.client_data); run_reference.
Defined.

(** * The verdict and the bytes it depends on *)

Lemma slice_insert_end (buf : list byte) (a b i : nat) (x : byte) :
  (b ≤ i)%nat → slice (<[i:=x]> buf) a b = slice buf a b.
Proof.
  intros Hb. unfold slice. destruct (decide (a ≤ i)%nat) as [Ha|Ha].
  - rewrite drop_insert_ge by done. apply take_insert_ge. lia.
  - by replace (b - a)%nat with 0%nat by lia.
Qed.

(** Writing a byte inside the credentialId changes that field and no
    other. *)
Lemma parse_insert_credID (buf : list byte) (r : AuthData) (i : nat) (b' : byte) :
  parseMakeCredAuthData (JBuf buf) = Return r →
  (55 ≤ i < 55 + length (credID r))%nat →
  parseMakeCredAuthData (JBuf (<[i:=b']> buf))
  = Return {| rpIdHash := rpIdHash r; flagsBuf := flagsBuf r;
              flags := flags r; counter := counter r;
              counterBuf := counterBuf r; aaguid := aaguid r;
              credID := <[(i - 55)%nat:=b']> (credID r);
              COSEPublicKey := COSEPublicKey r |}
  ∧ credID r !! (i - 55)%nat = buf !! i.
Proof.
  intros Hr Hi.
  destruct (parse_returned _ _ Hr) as (buf0 & [= <-] & Hlen & ->).
  cbn [rpIdHash flagsBuf flags counter counterBuf aaguid credID COSEPublicKey]
    in *.
  rewrite slice_length in Hi.
  assert (declared_credIDLen (<[i:=b']> buf) = declared_credIDLen buf) as Hn.
  { unfold declared_credIDLen. by rewrite slice_insert_end by lia. }
  split.
  - rewrite parse_long by (rewrite length_insert; lia).
    rewrite Hn. set (n := Z.to_nat (declared_credIDLen buf)) in *.
    rewrite !slice_insert_end by lia.
    rewrite list_lookup_insert_ne by lia.
    rewrite drop_insert_lt by lia.
    do 2 f_equal. unfold slice.
    rewrite drop_insert_ge by lia. apply take_insert_lt. lia.
  - rewrite slice_lookup by lia. f_equal. lia.
Qed.

Section VerdictBytes.
Context `{Required}.

(** The orchestrator on a decoded plain object with everything in place. *)
Lemma verify_obj (resp : WebAuthnResponse) (fields stmt : gmap string jsval)
    (rest : list jsval) (buf : list byte) (r : AuthData)
    (clientData x y cert : list byte) (x5c signature : jsval) (pem : string) :
  decode_attestation (attestationObject (response resp))
  = Return (JObj fields :: rest) →
  fields !! "authData" = Some (JBuf buf) →
  parseMakeCredAuthData (JBuf buf) = Return r →
  flags_and (flags r) U2F_USER_PRESENTED ≠ 0 →
  base64url_toBuffer (clientDataJSON (response resp)) = inr clientData →
  has_coordinates (COSEPublicKey r) x y →
  fields !! "attStmt" = Some (JObj stmt) →
  stmt !! "x5c" = Some x5c →
  get_index0 x5c = Return (JBuf cert) →
  ASN1toPEM (JBuf cert) = Return pem →
  stmt !! "sig" = Some signature →
  verifyFidoU2fAttestation resp
  = call crypto
      (crypto_sha256_verify
         ([x00] ++ rpIdHash r ++ crypto_sha256_digest clientData ++ credID r
          ++ ([x04] ++ x ++ y)) pem signature).
Proof.
  intros Hitems HauthData Hr Hup Hcd Hxy HattStmt Hx5c Hleaf Hpem Hsig.
  rewrite verify_steps, Hitems, bind_Return. cbv zeta.
  change (default JUndefined ((JObj fields :: rest) !! 0%nat)) with (JObj fields).
  cbn [get_prop]. rewrite HauthData. cbn [default from_option id].
  rewrite bind_Return, Hr, bind_Return.
  apply Z.eqb_neq in Hup. rewrite Hup.
  rewrite attest_steps, Hcd. cbn [call].
  rewrite bind_Return, (cose_returns _ x y Hxy), bind_Return.
  rewrite (verify_statement_obj fields stmt) by done.
  rewrite Hx5c, Hsig. cbn [default from_option id].
  by rewrite Hleaf, bind_Return, Hpem, bind_Return.
Qed.

(** C1 (amended): for an input with everything in place the boolean returned
    is the answer of the signature verifier on the reconstructed signature
    base, the PEM text of [x5c[0]] and [attStmt.sig]; the orchestrator adds
    no check of its own.  Changing a byte of the signature hands the
    verifier another signature, changing a byte of the credentialId hands it
    another base, and the result is the verifier's answer on that, so
    [false] whenever the verifier rejects it.  Changing clientDataJSON
    changes the base exactly when it changes the digest of the decoded
    bytes; when it does not, the result stays what it was. *)
Theorem attestation_verdict (resp : WebAuthnResponse)
    (fields stmt : gmap string jsval) (rest : list jsval) (buf : list byte)
    (r : AuthData) (clientData x y sig cert : list byte) (x5c : jsval)
    (pem : string) :
  decode_attestation (attestationObject (response resp))
  = Return (JObj fields :: rest) →
  fields !! "authData" = Some (JBuf buf) →
  parseMakeCredAuthData (JBuf buf) = Return r →
  flags_and (flags r) U2F_USER_PRESENTED ≠ 0 →
  base64url_toBuffer (clientDataJSON (response resp)) = inr clientData →
  has_coordinates (COSEPublicKey r) x y →
  fields !! "attStmt" = Some (JObj stmt) →
  stmt !! "x5c" = Some x5c →
  get_index0 x5c = Return (JBuf cert) →
  ASN1toPEM (JBuf cert) = Return pem →
  stmt !! "sig" = Some (JBuf sig) →
  let base (digest credID : list byte) :=
    [x00] ++ rpIdHash r ++ digest ++ credID ++ ([x04] ++ x ++ y) in
  let data := base (crypto_sha256_digest clientData) (credID r) in
  (∀ b, verifyFidoU2fAttestation resp = Return b
        ↔ crypto_sha256_verify data pem (JBuf sig) = inr b)
  ∧ (∀ (resp' : WebAuthnResponse) (fields' stmt' : gmap string jsval)
       (rest' : list jsval) (i : nat) (b' : byte),
       decode_attestation (attestationObject (response resp'))
       = Return (JObj fields' :: rest') →
       fields' !! "authData" = Some (JBuf buf) →
       fields' !! "attStmt" = Some (JObj stmt') →
       stmt' !! "x5c" = Some x5c →
       stmt' !! "sig" = Some (JBuf (<[i:=b']> sig)) →
       clientDataJSON (response resp') = clientDataJSON (response resp) →
       (i < length sig)%nat →
       sig !! i ≠ Some b' →
       <[i:=b']> sig ≠ sig
       ∧ verifyFidoU2fAttestation resp'
         = call crypto (crypto_sha256_verify data pem (JBuf (<[i:=b']> sig))))
  ∧ (∀ (resp' : WebAuthnResponse) (fields' : gmap string jsval)
       (rest' : list jsval) (i : nat) (b' : byte),
       decode_attestation (attestationObject (response resp'))
       = Return (JObj fields' :: rest') →
       fields' !! "authData" = Some (JBuf (<[i:=b']> buf)) →
       fields' !! "attStmt" = Some (JObj stmt) →
       clientDataJSON (response resp') = clientDataJSON (response resp) →
       (55 ≤ i < 55 + length (credID r))%nat →
       buf !! i ≠ Some b' →
       let data' :=
         base (crypto_sha256_digest clientData)
           (<[(i - 55)%nat:=b']> (credID r)) in
       data' ≠ data
       ∧ verifyFidoU2fAttestation resp'
         = call crypto (crypto_sha256_verify data' pem (JBuf sig)))
  ∧ (∀ (resp' : WebAuthnResponse) (clientData' : list byte),
       attestationObject (response resp') = attestationObject (response resp) →
       base64url_toBuffer (clientDataJSON (response resp')) = inr clientData' →
       let data' := base (crypto_sha256_digest clientData') (credID r) in
       verifyFidoU2fAttestation resp'
       = call crypto (crypto_sha256_verify data' pem (JBuf sig))
       ∧ (data' = data
          ↔ crypto_sha256_digest clientData' = crypto_sha256_digest clientData)
       ∧ (crypto_sha256_digest clientData' = crypto_sha256_digest clientData →
          verifyFidoU2fAttestation resp' = verifyFidoU2fAttestation resp)).
Proof.
  intros Hitems HauthData Hr Hup Hcd Hxy HattStmt Hx5c Hleaf Hpem Hsig base data.
  pose proof (verify_obj resp fields stmt rest buf r clientData x y cert x5c
                (JBuf sig) pem Hitems HauthData Hr Hup Hcd Hxy HattStmt Hx5c
                Hleaf Hpem Hsig) as Hresp.
  fold (base (crypto_sha256_digest clientData) (credID r)) in Hresp.
  fold data in Hresp.
  split; [|split; [|split]].
  - intros b. rewrite Hresp. split.
    + apply call_returned.
    + by intros ->.
  - intros resp' fields' stmt' rest' i b' Hitems' HauthData' HattStmt' Hx5c'
      Hsig' Hcd' Hi Hb'. split.
    + intros Heq. apply Hb'.
      by rewrite <- Heq, list_lookup_insert_eq.
    + rewrite <- Hcd' in Hcd.
      exact (verify_obj resp' fields' stmt' rest' buf r clientData x y cert
               x5c _ pem Hitems' HauthData' Hr Hup Hcd Hxy HattStmt' Hx5c'
               Hleaf Hpem Hsig').
  - intros resp' fields' rest' i b' Hitems' HauthData' HattStmt' Hcd' Hi Hb'
      data'.
    destruct (parse_insert_credID buf r i b' Hr Hi) as [Hr' Hlookup].
    split.
    + unfold data', data, base. intros Heq.
      do 3 apply app_inv_head in Heq. apply app_inv_tail in Heq.
      apply Hb'. rewrite <- Hlookup, <- Heq.
      rewrite list_lookup_insert_eq by lia. done.
    + rewrite <- Hcd' in Hcd.
      exact (verify_obj resp' fields' stmt rest' (<[i:=b']> buf) _ clientData
               x y cert x5c (JBuf sig) pem Hitems' HauthData' Hr' Hup Hcd Hxy
               HattStmt' Hx5c Hleaf Hpem Hsig).
  - intros resp' clientData' Hatt Hcd' data'.
    rewrite <- Hatt in Hitems.
    pose proof (verify_obj resp' fields stmt rest buf r clientData' x y cert
                  x5c (JBuf sig) pem Hitems HauthData Hr Hup Hcd' Hxy HattStmt
                  Hx5c Hleaf Hpem Hsig) as Hresp'.
    split; [exact Hresp'|]. split.
    + unfold data', data, base. split.
      * intros Heq. do 2 apply app_inv_head in Heq.
        by apply app_inv_tail in Heq.
      * by intros ->.
    + intros Hdigest. rewrite Hresp', Hresp. unfold data. by rewrite Hdigest.
Qed.
End VerdictBytes.

(** The claim C1 as stated does not hold for clientDataJSON: the strings
    ["e30"] and ["e31"] differ in their last byte and decode to the same two
    bytes, so the signature base is the same and the result stays [true]. *)
Lemma client_data_byte_change_still_true :
  let before := Reference.response_cd Reference.attestation "e30" in
  let after := Reference.response_cd Reference.attestation "e31" in
  clientDataJSON (response before) ≠ clientDataJSON (response after)
  ∧ attestationObject (response before) = attestationObject (response after)
  ∧ Reference.toBuffer "e30" = inr Reference.client_data
  ∧ Reference.toBuffer "e31" = inr Reference.client_data
  ∧ @verifyFidoU2fAttestation Reference.modules before = Return true
  ∧ @verifyFidoU2fAttestation Reference.modules after = Return true
  ∧ @verifyFidoU2fAttestation
      (Reference.exact_modules Reference.signature_base
         (Reference.toy_digest Reference.signature_base)) after
    = Return true.
Proof. cbv zeta. repeat split; run_reference. Qed.

Lemma attestation_verdict_witness :
  let M := Reference.exact_modules Reference.signature_base
             (Reference.toy_digest Reference.signature_base) in
  @verifyFidoU2fAttestation M (Reference.response_of Reference.attestation)
  = Return true
  ∧ @verifyFidoU2fAttestation M
      (Reference.response_of
         (Reference.attestation_with
            (<[0%nat:=x00]> (Reference.toy_digest Reference.signature_base))
            Reference.auth_data))
    = Return false
  ∧ @verifyFidoU2fAttestation M
      (Reference.response_of
         (Reference.attestation_auth (<[55%nat:=x00]> Reference.auth_data)))
    = Return false
  ∧ @verifyFidoU2fAttestation M
      (Reference.response_cd Reference.attestation "e3s")
    = Return false
  ∧ @verifyFidoU2fAttestation M
      (Reference.response_cd Reference.attestation "e31")
    = Return true.
Proof.
  intros M.
  destruct (parseMakeCredAuthData (JBuf Reference.auth_data)) as [r|e] eqn:Hr;
    [|exfalso; vm_compute in Hr; discriminate].
  destruct (@attestation_verdict M
              (Reference.response_of Reference.attestation)
              (Reference.fields_of (Reference.first_of Reference.attestation))
              (Reference.fields_of
                 (default JUndefined
                    (Reference.fields_of
                       (Reference.first_of Reference.attestation)
                     !! "attStmt")))
              [] Reference.auth_data r Reference.client_data
              Reference.X Reference.Y
              (Reference.toy_digest Reference.signature_base)
              Reference.cert (JArr [JBuf Reference.cert])
              (match ASN1toPEM (JBuf Reference.cert) with
               | Return pem => pem
               | Throw _ => ""
               end))
    as (Hv & Hsig & Hcred & Hcd).
  - vm_compute. reflexivity.
  - vm_compute. reflexivity.
  - exact Hr.
  - vm_compute in Hr. injection Hr as <-. vm_compute. discriminate.
  - vm_compute. reflexivity.
  - vm_compute in Hr. injection Hr as <-.
    eexists _, _. repeat split; vm_compute; reflexivity.
  - vm_compute. reflexivity.
  - vm_compute. reflexivity.
  - vm_compute. reflexivity.
  - vm_compute. reflexivity.
  - vm_compute. reflexivity.
  - vm_compute in Hr. injection Hr as <-.
    split; [|split; [|split; [|split]]].
    + apply Hv. vm_compute. reflexivity.
    + set (att := Reference.attestation_with
                    (<[0%nat:=x00]>
                       (Reference.toy_digest Reference.signature_base))
                    Reference.auth_data).
      destruct (Hsig (Reference.response_of att)
                  (Reference.fields_of (Reference.first_of att))
                  (Reference.fields_of
                     (default JUndefined
                        (Reference.fields_of (Reference.first_of att)
                         !! "attStmt")))
                  [] 0%nat x00) as [_ ->].
      * vm_compute. reflexivity.
      * vm_compute. reflexivity.
      * vm_compute. reflexivity.
      * vm_compute. reflexivity.
      * vm_compute. reflexivity.
      * vm_compute. reflexivity.
      * vm_compute. lia.
      * vm_compute. discriminate.
      * vm_compute. reflexivity.
    + set (att := Reference.attestation_auth
                    (<[55%nat:=x00]> Reference.auth_data)).
      pose proof (Hcred (Reference.response_of att)
                    (Reference.fields_of (Reference.first_of att))
                    [] 55%nat x00) as Hflip.
      cbv zeta in Hflip. destruct Hflip as [_ ->].
      * vm_compute. reflexivity.
      * vm_compute. reflexivity.
      * vm_compute. reflexivity.
      * vm_compute. reflexivity.
      * vm_compute. lia.
      * vm_compute. discriminate.
      * vm_compute. reflexivity.
    + pose proof (Hcd (Reference.response_cd Reference.attestation "e3s")
                    [x7b; x7b]) as Hchanged.
      cbv zeta in Hchanged. destruct Hchanged as (-> & _ & _).
      * vm_compute. reflexivity.
      * vm_compute. reflexivity.
      * vm_compute. reflexivity.
    + pose proof (Hcd (Reference.response_cd Reference.attestation "e31")
                    Reference.client_data) as Hsame.
      cbv zeta in Hsame. destruct Hsame as (_ & _ & Hsame).
      * vm_compute. reflexivity.
      * vm_compute. reflexivity.
      * rewrite Hsame by (vm_compute; reflexivity).
        apply Hv. vm_compute. reflexivity.
Defined.
